(** * Audit signal handlers of [apps/audits/signal_handlers.py]

    A shallow embedding of the relation-change, save, password-change and
    authentication handlers, and the properties of the audit records they
    hand to the store. *)

From Stdlib Require Import String Ascii ZArith Lia.
From stdpp Require Import base option list gmap strings.

Local Open Scope string_scope.

(** ** Python strings

    A Python [str] is a sequence of characters; it is modelled by [string],
    one [ascii] standing for one character.  Length and slicing count
    characters, as in Python. *)
Module PyStr.

(** [s[:n]] for a non-negative [n]. *)
Fixpoint slice_to (n : nat) (s : string) : string :=
  match n, s with
  | O, _ => ""
  | S _, EmptyString => ""
  | S k, String c rest => String c (slice_to k rest)
  end.

(** [s[n:]] for a non-negative [n]. *)
Fixpoint slice_from (n : nat) (s : string) : string :=
  match n, s with
  | O, _ => s
  | S _, EmptyString => ""
  | S k, String _ rest => slice_from k rest
  end.

(** [x or default] on strings: the empty string is falsy. *)
Definition or_else (x default : string) : string :=
  match x with
  | EmptyString => default
  | _ => x
  end.

Definition is_digit (c : ascii) : bool :=
  let n := nat_of_ascii c in (48 <=? n)%nat && (n <=? 57)%nat.

Fixpoint all_digits (s : string) : bool :=
  match s with
  | EmptyString => true
  | String c rest => is_digit c && all_digits rest
  end.

(** The value of a string of decimal digits. *)
Definition digit_value (c : ascii) : N := N.of_nat (nat_of_ascii c - 48).

Fixpoint decimal_from (acc : N) (s : string) : N :=
  match s with
  | EmptyString => acc
  | String c rest => decimal_from (10 * acc + digit_value c) rest
  end.

(** [sys.maxsize] of a 64-bit build. *)
Definition sys_maxsize : N := 2 ^ 63 - 1.

(** The exceptions the handlers can meet; [OtherError] is an exception of
    any other class, by the name of the class. *)
Inductive exn :=
  | KeyError (key : string)
  | IndexError
  | ValueError
  | TypeError
  | OtherError (class_name : string).

Inductive result (A : Type) :=
  | Ok (a : A)
  | Raise (e : exn).
Arguments Ok {A} a.
Arguments Raise {A} e.

(** Characters that, inside a replacement field, start a conversion, a
    format spec, an attribute or an index, or open a nested brace. *)
Definition field_special (c : ascii) : bool :=
  bool_decide (c = "{"%char) || bool_decide (c = "!"%char) ||
  bool_decide (c = ":"%char) || bool_decide (c = "."%char) ||
  bool_decide (c = "["%char).

(** Scanner state of [str.format]. *)
Inductive fmt_state :=
  | Literal
  | AfterOpen
  | InField (name : string)
  | AfterClose.

(** The value [t.format] substitutes for the plain field [name], given
    keyword arguments only.  An empty or numeric name indexes the empty
    tuple of positional arguments: a number above [sys.maxsize] is a
    [ValueError], any other an [IndexError].  Any other name is looked up
    in [kwargs], and is a [KeyError] when absent. *)
Definition field_value (kwargs : gmap string string) (name : string) : result string :=
  if all_digits name
  then if (sys_maxsize <? decimal_from 0 name)%N
       then Raise ValueError
       else Raise IndexError
  else match kwargs !! name with
       | Some v => Ok v
       | None => Raise (KeyError name)
       end.

Definition prepend (s : string) (r : result string) : result string :=
  match r with
  | Ok rest => Ok (s ++ rest)
  | Raise e => Raise e
  end.

Section Format.

(** What [str.format] does from a replacement field on that uses a
    conversion, a format spec, an attribute, an index or a nested brace:
    the function is given the field name read so far, the character met,
    the template after it and the keyword arguments, and returns the text
    of that field and of all that follows, or the exception raised.  This
    part of [str.format] is taken as given. *)
Variable format_special :
  string → ascii → string → gmap string string → result string.

(** [t.format] with keyword arguments [kwargs], scanning [t] from the
    state [st]; the first failing field decides the exception. *)
Fixpoint format_from (kwargs : gmap string string) (st : fmt_state) (t : string)
  : result string :=
  match t with
  | EmptyString =>
      match st with
      | Literal => Ok ""
      | AfterOpen | InField _ | AfterClose => Raise ValueError
      end
  | String c rest =>
      match st with
      | Literal =>
          if bool_decide (c = "{"%char) then format_from kwargs AfterOpen rest
          else if bool_decide (c = "}"%char) then format_from kwargs AfterClose rest
          else prepend (String c "") (format_from kwargs Literal rest)
      | AfterOpen =>
          if bool_decide (c = "{"%char)
          then prepend "{" (format_from kwargs Literal rest)
          else if bool_decide (c = "}"%char)
          then match field_value kwargs "" with
               | Ok v => prepend v (format_from kwargs Literal rest)
               | Raise e => Raise e
               end
          else if field_special c then format_special "" c rest kwargs
          else format_from kwargs (InField (String c "")) rest
      | InField name =>
          if bool_decide (c = "}"%char)
          then match field_value kwargs name with
               | Ok v => prepend v (format_from kwargs Literal rest)
               | Raise e => Raise e
               end
          else if field_special c then format_special name c rest kwargs
          else format_from kwargs (InField (name ++ String c "")) rest
      | AfterClose =>
          if bool_decide (c = "}"%char)
          then prepend "}" (format_from kwargs Literal rest)
          else Raise ValueError
      end
  end.

Definition format (t : string) (kwargs : gmap string string) : result string :=
  format_from kwargs Literal t.

End Format.

(** A template whose replacement fields are all plain names: scanning it
    never meets a special character inside a field. *)
Fixpoint plain_from (st : fmt_state) (t : string) : bool :=
  match t with
  | EmptyString => true
  | String c rest =>
      match st with
      | Literal =>
          if bool_decide (c = "{"%char) then plain_from AfterOpen rest
          else if bool_decide (c = "}"%char) then plain_from AfterClose rest
          else plain_from Literal rest
      | AfterOpen =>
          if bool_decide (c = "{"%char) then plain_from Literal rest
          else if bool_decide (c = "}"%char) then plain_from Literal rest
          else if field_special c then false
          else plain_from (InField (String c "")) rest
      | InField name =>
          if bool_decide (c = "}"%char) then plain_from Literal rest
          else if field_special c then false
          else plain_from (InField (name ++ String c "")) rest
      | AfterClose => plain_from Literal rest
      end
  end.

Definition plain_template (t : string) : bool := plain_from Literal t.

End PyStr.
Export PyStr.

(** ** Classes, instances and the request context *)

(** A class: its [__name__] and the names of the classes of its method
    resolution order (itself first). *)
Record PyClass := mkClass {
  cls_name : string;
  cls_mro : list string
}.

(** A model instance: its runtime class, primary key and [str()]. *)
Record PyObj := mkObj {
  obj_class : PyClass;
  obj_pk : Z;
  obj_str : string
}.

(** [isinstance(o, C)]. *)
Definition isinstance (o : PyObj) (C : PyClass) : bool :=
  bool_decide (cls_name C ∈ cls_mro (obj_class o)).

(** A model class together with the rows [model.objects] holds. *)
Record Model := mkModel {
  model_class : PyClass;
  model_objects : list PyObj
}.

(** [model.objects.filter(pk__in=pk_set)]. *)
Definition filter_pk_in (model : Model) (pk_set : gset Z) : list PyObj :=
  filter (λ o, obj_pk o ∈ pk_set) (model_objects model).

(** [request.user]: a user or the anonymous user. *)
Record AuthUser := mkUser {
  user_str : string;
  username : string;
  is_authenticated : bool;
  mfa_enabled : bool
}.

(** A request; [is_drf_request] is [isinstance(request, Request)] for the
    REST framework's [Request] class. *)
Record HttpRequest := mkRequest {
  is_drf_request : bool;
  META : gmap string string;
  session : gmap string string;
  req_user : AuthUser
}.

(** The ambient context: [current_request] (falsy when there is none) and
    [current_org.id]. *)
Record Ambient := mkAmbient {
  current_request : option HttpRequest;
  current_org_id : string
}.

(** [assets.models.Asset]. *)
Definition Asset : PyClass := mkClass "Asset" ["Asset"].

(** [ActionChoices], the members the handlers use. *)
Inductive ActionChoices := create | update | delete.

#[global] Instance ActionChoices_eq_dec : EqDecision ActionChoices.
Proof. solve_decision. Defined.

(** The [action] argument of the [m2m_changed] signal. *)
Inductive M2MAction :=
  | PRE_ADD | POST_ADD | PRE_REMOVE | POST_REMOVE | PRE_CLEAR | POST_CLEAR.

(** ** Audit records and effects *)

Record OperateLog := mkOperateLog {
  ol_user : string;
  ol_action : ActionChoices;
  ol_resource_type : string;
  ol_resource : string;
  ol_remote_addr : string;
  ol_org_id : string
}.

Record PasswordChangeLog := mkPasswordChangeLog {
  pcl_user : string;
  pcl_change_by : string;
  pcl_remote_addr : string
}.

(** The keyword arguments handed to [write_login_log]; [mfa] and [reason]
    are absent from the dictionary on the path that does not set them. *)
Record LoginData := mkLoginData {
  ld_username : string;
  ld_ip : string;
  ld_type : string;
  ld_user_agent : string;
  ld_datetime : Z;
  ld_backend : string;
  ld_mfa : option Z;
  ld_reason : option string;
  ld_status : option bool
}.

(** What a handler does to the outside world, in order. *)
Inductive Effect :=
  | Print (line : string)
  | BulkCreate (to_create : list OperateLog)
  | CreateOperateLog (action : ActionChoices) (sender : PyClass) (instance : PyObj)
  | CreatePasswordChangeLog (log : PasswordChangeLog)
  | CheckDifferentCity (user : AuthUser) (request : HttpRequest)
  | SetSession (key value : string)
  | WriteLoginLog (data : LoginData).

(** A handler returns after its effects, or raises after some of them. *)
Inductive Outcome :=
  | Returned (trace : list Effect)
  | Raised (trace : list Effect) (e : exn).

Definition trace_of (o : Outcome) : list Effect :=
  match o with
  | Returned t => t
  | Raised t _ => t
  end.

(** The batches handed to [OperateLog.objects.bulk_create]. *)
Definition bulk_creates (t : list Effect) : list (list OperateLog) :=
  omap (λ e, match e with BulkCreate recs => Some recs | _ => None end) t.

(** All [OperateLog] records a relation-change trace persists. *)
Definition records_of (o : Outcome) : list OperateLog :=
  concat (bulk_creates (trace_of o)).

(** ** The handlers *)

Section Handlers.

(** [_], the translation of a message in the active locale. *)
Variable gettext : string → string.

(** The part of [str.format] taken as given, see [format_from]. *)
Variable format_special :
  string → ascii → string → gmap string string → result string.

(** The [__name__] of the through models of the recorded relations:
    [User.groups.through], [Asset.nodes.through] and the four relations
    of [AssetPermission]. *)
Variables User_groups Asset_nodes : string.
Variables AssetPermission_users AssetPermission_user_groups : string.
Variables AssetPermission_assets AssetPermission_nodes : string.

(** [common.utils.get_request_ip]. *)
Variable get_request_ip : HttpRequest → string.

(** [AUTH_BACKEND_LABEL_MAPPING] rendered in the fixed locale, and
    [django.contrib.auth.BACKEND_SESSION_KEY]. *)
Variable AUTH_BACKEND_LABEL_MAPPING : gmap string string.
Variable BACKEND_SESSION_KEY : string.

(** [timezone.now()] at the call, and [strftime] with the handler's
    pattern. *)
Variable now : Z.
Variable strftime : Z → string.

(** The dictionary literal: a later entry replaces an earlier one with
    the same key. *)
Definition M2M_NEED_RECORD : gmap string (string * string * string) :=
  <[AssetPermission_nodes :=
      (gettext "Node permission",
       gettext "{AssetPermission} ADD {Node}",
       gettext "{AssetPermission} REMOVE {Node}")]>
  (<[AssetPermission_assets :=
      (gettext "Asset permission",
       gettext "{AssetPermission} ADD {Asset}",
       gettext "{AssetPermission} REMOVE {Asset}")]>
  (<[AssetPermission_user_groups :=
      (gettext "User group asset permissions",
       gettext "{AssetPermission} ADD {UserGroup}",
       gettext "{AssetPermission} REMOVE {UserGroup}")]>
  (<[AssetPermission_users :=
      (gettext "User asset permissions",
       gettext "{AssetPermission} ADD {User}",
       gettext "{AssetPermission} REMOVE {User}")]>
  (<[Asset_nodes :=
      (gettext "Node and Asset",
       gettext "{Node} ADD {Asset}",
       gettext "{Node} REMOVE {Asset}")]>
  (<[User_groups :=
      (gettext "User and Group",
       gettext "{User} JOINED {UserGroup}",
       gettext "{User} LEFT {UserGroup}")]> ∅))))).

(** [M2M_ACTION_MAPER.get(action)]; [None] when [action] is not a key. *)
Definition M2M_ACTION_MAPER (action : M2MAction) : option ActionChoices :=
  match action with
  | POST_ADD => Some create
  | POST_REMOVE => Some delete
  | POST_CLEAR => Some delete
  | PRE_ADD | PRE_REMOVE | PRE_CLEAR => None
  end.

(** The substitution key of the owning side. *)
Definition instance_name_of (instance : PyObj) : string :=
  if isinstance instance Asset then cls_name Asset
  else cls_name (obj_class instance).

(** The keyword arguments of one [format] call. *)
Definition format_kwargs (instance_name instance_value model_name obj_value : string)
  : gmap string string :=
  <[model_name := obj_value]> {[instance_name := instance_value]}.

(** The body of the loop for one related object. *)
Definition operate_log_for (user : string) (action : ActionChoices)
    (resource_type resource_tmpl remote_addr org_id : string)
    (instance_name instance_value model_name : string) (obj : PyObj)
  : result OperateLog :=
  match format format_special resource_tmpl
          (format_kwargs instance_name instance_value model_name (obj_str obj)) with
  | Ok text =>
      Ok (mkOperateLog user action resource_type (slice_to 128 text)
                       remote_addr org_id)
  | Raise e => Raise e
  end.

(** [for x in xs: acc.append(body(x))], stopping at the first exception. *)
Fixpoint for_each_append {A B : Type} (body : A → result B) (xs : list A)
    (acc : list B) : result (list B) :=
  match xs with
  | [] => Ok acc
  | x :: rest =>
      match body x with
      | Ok b => for_each_append body rest (acc ++ [b])
      | Raise e => Raise e
      end
  end.

(** The receiver of [m2m_changed].  [pk_set] is [None] for the clear
    actions, as Django sends it: [filter(pk__in=None)] then raises
    [TypeError], before the [print].  The trace lists the debugging [print]
    and the [bulk_create]; an exception of [format] leaves the loop before
    [bulk_create] is reached. *)
Definition on_m2m_changed (amb : Ambient) (sender : PyClass) (action : M2MAction)
    (instance : PyObj) (model : Model) (pk_set : option (gset Z)) : Outcome :=
  match M2M_ACTION_MAPER action with
  | None => Returned []
  | Some mapped =>
      match current_request amb with
      | None => Returned []
      | Some request =>
          let user := req_user request in
          if negb (is_authenticated user) then Returned []
          else
            let sender_name := cls_name sender in
            match M2M_NEED_RECORD !! sender_name with
            | None => Returned []
            | Some (resource_type, resource_tmpl_add, resource_tmpl_remove) =>
                let org_id := current_org_id amb in
                let remote_addr := get_request_ip request in
                let user := user_str user in
                let tmpl :=
                  match mapped with
                  | create => Some resource_tmpl_add
                  | delete => Some resource_tmpl_remove
                  | update => None
                  end in
                match tmpl with
                | None => Returned []
                | Some resource_tmpl =>
                    match pk_set with
                    | None => Raised [] TypeError
                    | Some pks =>
                        let objs := filter_pk_in model pks in
                        let instance_name := instance_name_of instance in
                        let instance_value := obj_str instance in
                        let model_name := cls_name (model_class model) in
                        let printed :=
                          Print ("Instace name:  " ++ instance_name ++ " "
                                 ++ instance_value) in
                        match for_each_append
                                (operate_log_for user mapped resource_type
                                   resource_tmpl remote_addr org_id instance_name
                                   instance_value model_name)
                                objs [] with
                        | Ok to_create => Returned [printed; BulkCreate to_create]
                        | Raise e => Raised [printed] e
                        end
                    end
                end
            end
      end
  end.

(** Truth value of [update_fields]: [None] and the empty collection are
    falsy. *)
Definition truthy_fields (update_fields : option (gset string)) : bool :=
  match update_fields with
  | None => false
  | Some fs => negb (bool_decide (fs = ∅))
  end.

Definition contains_field (f : string) (update_fields : option (gset string)) : bool :=
  match update_fields with
  | None => false
  | Some fs => bool_decide (f ∈ fs)
  end.

Definition on_object_created_or_update (sender : PyClass) (instance : PyObj)
    (created : bool) (update_fields : option (gset string)) : Outcome :=
  if bool_decide (cls_name (obj_class instance) = "User")
     && truthy_fields update_fields
     && contains_field "last_login" update_fields
  then Returned []
  else
    let action := if created then create else update in
    Returned [CreateOperateLog action sender instance].

Definition on_object_delete (sender : PyClass) (instance : PyObj) : Outcome :=
  Returned [CreateOperateLog delete sender instance].

(** The receiver of [post_user_change_password]; the single [create] runs
    inside [transaction.atomic()]. *)
Definition on_user_change_password (amb : Ambient) (sender : PyClass)
    (user : AuthUser) : Outcome :=
  let '(remote_addr, change_by) :=
    match current_request amb with
    | None => ("127.0.0.1", "System")
    | Some request =>
        (get_request_ip request,
         if negb (is_authenticated (req_user request)) then user_str user
         else user_str (req_user request))
    end in
  Returned [CreatePasswordChangeLog
              (mkPasswordChangeLog (user_str user) change_by remote_addr)].

(** [d.get(key, default)]. *)
Definition dict_get (d : gmap string string) (key default : string) : string :=
  match d !! key with
  | Some v => v
  | None => default
  end.

Definition get_login_backend (request : HttpRequest) : string :=
  let backend :=
    or_else (dict_get (session request) "auth_backend" "")
            (dict_get (session request) BACKEND_SESSION_KEY "") in
  match AUTH_BACKEND_LABEL_MAPPING !! backend with
  | None => ""
  | Some backend_label => backend_label
  end.

Definition generate_data (username : string) (request : HttpRequest)
    (login_type : option string) : LoginData :=
  let user_agent := dict_get (META request) "HTTP_USER_AGENT" "" in
  let login_ip := or_else (get_request_ip request) "0.0.0.0" in
  let login_type :=
    match login_type with
    | None =>
        if is_drf_request request
        then Some (dict_get (META request) "HTTP_X_JMS_LOGIN_TYPE" "U")
        else None
    | Some t => Some t
    end in
  let login_type :=
    match login_type with
    | None => "W"
    | Some t => t
    end in
  let backend := get_login_backend request in
  {| ld_username := username;
     ld_ip := login_ip;
     ld_type := login_type;
     ld_user_agent := slice_to 254 user_agent;
     ld_datetime := now;
     ld_backend := backend;
     ld_mfa := None;
     ld_reason := None;
     ld_status := None |}.

(** The receiver of [post_auth_success]; the [logger.debug] line is not
    part of the trace. *)
Definition on_user_auth_success (sender : PyClass) (user : AuthUser)
    (request : HttpRequest) (login_type : option string) : Outcome :=
  let data := generate_data (username user) request login_type in
  let data' :=
    {| ld_username := ld_username data; ld_ip := ld_ip data;
       ld_type := ld_type data; ld_user_agent := ld_user_agent data;
       ld_datetime := ld_datetime data; ld_backend := ld_backend data;
       ld_mfa := Some (if mfa_enabled user then 1%Z else 0%Z);
       ld_reason := ld_reason data;
       ld_status := Some true |} in
  Returned [CheckDifferentCity user request;
            SetSession "login_time" (strftime (ld_datetime data));
            WriteLoginLog data'].

(** [reason] is [None] when the caller does not pass it; the parameter
    then takes its default, the empty string. *)
Definition on_user_auth_failed (sender : PyClass) (username : string)
    (request : HttpRequest) (reason : option string) : Outcome :=
  let reason := default "" reason in
  let data := generate_data username request None in
  let data' :=
    {| ld_username := ld_username data; ld_ip := ld_ip data;
       ld_type := ld_type data; ld_user_agent := ld_user_agent data;
       ld_datetime := ld_datetime data; ld_backend := ld_backend data;
       ld_mfa := ld_mfa data;
       ld_reason := Some (slice_to 128 reason);
       ld_status := Some false |} in
  Returned [WriteLoginLog data'].

End Handlers.

#[global] Instance M2MAction_eq_dec : EqDecision M2MAction.
Proof. solve_decision. Defined.

(** ** Backend labels and the log mirror *)

#[global] Instance PyClass_eq_dec : EqDecision PyClass.
Proof. solve_decision. Defined.

(** The serializer classes [on_audits_log_create] chooses from. *)
Inductive SerializerClass :=
  | UserLoginLogSerializer
  | FTPLogSerializer
  | OperateLogSerializer
  | PasswordChangeLogSerializer
  | SessionSerializer
  | SessionCommandSerializer.

Section Mirror.

Variable gettext : string → string.

(** The backend identifiers of [settings]. *)
Variables AUTH_BACKEND_PUBKEY AUTH_BACKEND_MODEL AUTH_BACKEND_SSO : string.
Variables AUTH_BACKEND_AUTH_TOKEN AUTH_BACKEND_WECOM AUTH_BACKEND_FEISHU : string.
Variables AUTH_BACKEND_DINGTALK AUTH_BACKEND_TEMP_TOKEN : string.

(** The two nested loops of [get_login_backends] over
    [User.SOURCE_BACKEND_MAPPING.items()], given as the pairs of
    [source.label] and [backends] in the dictionary's order. *)
Definition label_backends (m : gmap string string) (label : string)
    (backends : list string) : gmap string string :=
  foldl (λ acc backend, <[backend := label]> acc) m backends.

Definition label_sources (m : gmap string string)
    (items : list (string * list string)) : gmap string string :=
  foldl (λ acc item, label_backends acc item.1 item.2) m items.

Definition get_login_backends (SOURCE_BACKEND_MAPPING : list (string * list string))
  : gmap string string :=
  let backend_label_mapping := label_sources ∅ SOURCE_BACKEND_MAPPING in
  let backend_label_mapping :=
    <[AUTH_BACKEND_PUBKEY := gettext "SSH Key"]> backend_label_mapping in
  let backend_label_mapping :=
    <[AUTH_BACKEND_MODEL := gettext "Password"]> backend_label_mapping in
  let backend_label_mapping :=
    <[AUTH_BACKEND_SSO := gettext "SSO"]> backend_label_mapping in
  let backend_label_mapping :=
    <[AUTH_BACKEND_AUTH_TOKEN := gettext "Auth Token"]> backend_label_mapping in
  let backend_label_mapping :=
    <[AUTH_BACKEND_WECOM := gettext "WeCom"]> backend_label_mapping in
  let backend_label_mapping :=
    <[AUTH_BACKEND_FEISHU := gettext "FeiShu"]> backend_label_mapping in
  let backend_label_mapping :=
    <[AUTH_BACKEND_DINGTALK := gettext "DingTalk"]> backend_label_mapping in
  let backend_label_mapping :=
    <[AUTH_BACKEND_TEMP_TOKEN := gettext "Temporary token"]> backend_label_mapping in
  backend_label_mapping.

(** The model classes [on_audits_log_create] compares its sender with:
    the four log models of [audits.models] and the two of
    [terminal.models]. *)
Variables models_UserLoginLog models_FTPLog models_OperateLog : PyClass.
Variables models_PasswordChangeLog Session Command : PyClass.

(** [data_to_json(serializer_cls(instance).data, indent=None)]. *)
Variable data_to_json : SerializerClass → PyObj → string.

(** The [if]/[elif] chain on [sender]; [None] is the final [else]. *)
Definition audit_category (sender : PyClass) : option (string * SerializerClass) :=
  if bool_decide (sender = models_UserLoginLog)
  then Some ("login_log", UserLoginLogSerializer)
  else if bool_decide (sender = models_FTPLog)
  then Some ("ftp_log", FTPLogSerializer)
  else if bool_decide (sender = models_OperateLog)
  then Some ("operation_log", OperateLogSerializer)
  else if bool_decide (sender = models_PasswordChangeLog)
  then Some ("password_change_log", PasswordChangeLogSerializer)
  else if bool_decide (sender = Session)
  then Some ("host_session_log", SessionSerializer)
  else if bool_decide (sender = Command)
  then Some ("session_command_log", SessionCommandSerializer)
  else None.

(** The line handed to [sys_logger.info], or [None] when the handler
    returns without logging.  With two positional string arguments the
    pattern of the message is their concatenation around the separator. *)
Definition on_audits_log_create (sender : PyClass) (instance : PyObj) : option string :=
  match audit_category sender with
  | None => None
  | Some (category, serializer_cls) =>
      let data := data_to_json serializer_cls instance in
      let msg := category ++ " - " ++ data in
      Some msg
  end.

End Mirror.

(** The label the sources give a backend: that of the last source that
    lists it. *)
Definition source_label (items : list (string * list string)) (backend : string)
  : option string :=
  last (omap (λ item : string * list string,
                if bool_decide (backend ∈ item.2) then Some item.1 else None)
             items).

(** ** Statement vocabulary *)

Definition is_ok {A : Type} (r : result A) : bool :=
  match r with
  | Ok _ => true
  | Raise _ => false
  end.

(** The template [t] can be formatted with the two substitution keys
    [instance_name] and [model_name], here with empty texts (for a plain
    template the substituted texts play no role, see [format_ok_dom]). *)
Definition template_fits
    (format_special : string → ascii → string → gmap string string → result string)
    (t instance_name model_name : string) : bool :=
  is_ok (format format_special t (<[model_name := ""]> {[instance_name := ""]})).

(** [stored] is [input] cut to at most [cap] characters: never longer than
    the cap, always a prefix, the whole input when it fits, and exactly the
    first [cap] characters when it does not. *)
Definition capped (cap : nat) (input stored : string) : Prop :=
  (String.length stored ≤ cap)%nat
  ∧ (∃ rest, input = stored ++ rest)
  ∧ ((String.length input ≤ cap)%nat → stored = input)
  ∧ ((cap < String.length input)%nat → String.length stored = cap).

(** The fields every record of one relation-change batch shares. *)
Definition shares (user : string) (action : ActionChoices)
    (resource_type remote_addr org_id : string) (r : OperateLog) : Prop :=
  ol_user r = user ∧ ol_action r = action ∧ ol_resource_type r = resource_type
  ∧ ol_remote_addr r = remote_addr ∧ ol_org_id r = org_id.

(** The action is one of add, remove, clear. *)
Definition recorded_action (action : M2MAction) : Prop :=
  action = POST_ADD ∨ action = POST_REMOVE ∨ action = POST_CLEAR.

(** The ambient actor exists and is authenticated. *)
Definition authenticated_actor (amb : Ambient) : Prop :=
  ∃ request, current_request amb = Some request
             ∧ is_authenticated (req_user request) = true.

(** The sender's name is a key of the registry [reg]. *)
Definition registered (reg : gmap string (string * string * string))
    (sender : PyClass) : Prop :=
  is_Some (reg !! cls_name sender).

(** The registered template the mapped action selects. *)
Definition template_of (action : M2MAction) (tmpl_add tmpl_remove : string) : string :=
  if bool_decide (action = POST_ADD) then tmpl_add else tmpl_remove.

(** The action recorded for a relation change: add is a create, remove
    and clear are deletes. *)
Definition action_of (action : M2MAction) : ActionChoices :=
  if bool_decide (action = POST_ADD) then create else delete.

(** ** Sample data

    The through models are auto-created, so Django names them
    [<Model>_<field>]. *)
Module Sample.

Definition names : list string :=
  ["User_groups"; "Asset_nodes"; "AssetPermission_users";
   "AssetPermission_user_groups"; "AssetPermission_assets";
   "AssetPermission_nodes"].

Definition registry : gmap string (string * string * string) :=
  M2M_NEED_RECORD id "User_groups" "Asset_nodes" "AssetPermission_users"
    "AssetPermission_user_groups" "AssetPermission_assets"
    "AssetPermission_nodes".

Definition ip_of (r : HttpRequest) : string := dict_get (META r) "REMOTE_ADDR" "".

(** A stand-in for the part of [str.format] taken as given; the
    registered templates are plain and never reach it. *)
Definition special (name : string) (c : ascii) (rest : string)
    (kwargs : gmap string string) : result string :=
  Raise ValueError.

Definition m2m_changed :=
  on_m2m_changed id special "User_groups" "Asset_nodes" "AssetPermission_users"
    "AssetPermission_user_groups" "AssetPermission_assets"
    "AssetPermission_nodes" ip_of.

Definition User : PyClass := mkClass "User" ["User"].
Definition UserGroup : PyClass := mkClass "UserGroup" ["UserGroup"].
Definition Node : PyClass := mkClass "Node" ["Node"].
Definition AssetPermission : PyClass := mkClass "AssetPermission" ["AssetPermission"].
(** A subtype of [Asset]. *)
Definition Host : PyClass := mkClass "Host" ["Host"; "Asset"].
(** A subtype of [User]. *)
Definition StaffUser : PyClass := mkClass "StaffUser" ["StaffUser"; "User"].

Definition through (name : string) : PyClass := mkClass name [name].

Definition bob : AuthUser := mkUser "bob" "bob" true false.
Definition anonymous : AuthUser := mkUser "AnonymousUser" "" false false.

Definition web_request (u : AuthUser) : HttpRequest :=
  mkRequest false {["REMOTE_ADDR" := "10.0.0.7"]} ∅ u.
Definition api_request (u : AuthUser) (meta : gmap string string) : HttpRequest :=
  mkRequest true meta ∅ u.

Definition by_bob : Ambient := mkAmbient (Some (web_request bob)) "org-1".
Definition by_anonymous : Ambient := mkAmbient (Some (web_request anonymous)) "org-1".
Definition no_context : Ambient := mkAmbient None "".

Definition alice : PyObj := mkObj User 1 "alice".
Definition carol_staff : PyObj := mkObj StaffUser 2 "carol".
Definition admins : PyObj := mkObj UserGroup 10 "admins".
Definition ops : PyObj := mkObj UserGroup 11 "ops".
Definition web1 : PyObj := mkObj Host 20 "web1".
Definition root_node : PyObj := mkObj Node 30 "/Default".
Definition perm1 : PyObj := mkObj AssetPermission 40 "perm1".

Definition groups : Model := mkModel UserGroup [admins; ops].
Definition nodes : Model := mkModel Node [root_node].

Definition users : Model := mkModel User [alice; carol_staff].

(** The login handlers with no backend label configured, at time 0. *)
Definition data_for : string → HttpRequest → option string → LoginData :=
  generate_data ip_of ∅ "_auth_user_backend" 0.
Definition auth_failed : PyClass → string → HttpRequest → option string → Outcome :=
  on_user_auth_failed ip_of ∅ "_auth_user_backend" 0.

(** A text of [n] characters. *)
Fixpoint text (n : nat) : string :=
  match n with
  | O => ""
  | S k => String "a" (text k)
  end.

(** Backend identifiers and login sources for the label mapping. *)
Definition backends : list string :=
  ["pubkey"; "model"; "sso"; "auth_token"; "wecom"; "feishu"; "dingtalk";
   "temp_token"].

Definition login_backends : list (string * list string) → gmap string string :=
  get_login_backends id "pubkey" "model" "sso" "auth_token" "wecom" "feishu"
    "dingtalk" "temp_token".

Definition sources : list (string * list string) :=
  [("Local", ["model"; "pubkey"]); ("LDAP", ["ldap"]); ("CAS", ["cas"; "ldap"])].

(** The log mirror on six model classes; an instance is rendered by its
    display text. *)
Definition log_model (name : string) : PyClass := mkClass name [name].
Definition render (serializer_cls : SerializerClass) (o : PyObj) : string :=
  obj_str o.
Definition category_of : PyClass → option (string * SerializerClass) :=
  audit_category (log_model "UserLoginLog") (log_model "FTPLog")
    (log_model "OperateLog") (log_model "PasswordChangeLog")
    (log_model "Session") (log_model "Command").
Definition audits_log_create : PyClass → PyObj → option string :=
  on_audits_log_create (log_model "UserLoginLog") (log_model "FTPLog")
    (log_model "OperateLog") (log_model "PasswordChangeLog")
    (log_model "Session") (log_model "Command") render.

(** A session that names a backend nobody configured. *)
Definition radius_request : HttpRequest :=
  mkRequest false ∅ {["auth_backend" := "radius"]} anonymous.

End Sample.

(** ** Slicing *)

Lemma app_cons_string (c : ascii) (s t : string) :
  String c s ++ t = String c (s ++ t).
Proof. reflexivity. Qed.

Lemma app_nil_l_string (t : string) : "" ++ t = t.
Proof. reflexivity. Qed.

Lemma app_nil_r_string (s : string) : s ++ "" = s.
Proof.
  induction s as [|c s IH]; [done|]. by rewrite app_cons_string, IH.
Qed.

Lemma length_app_string (s t : string) :
  String.length (s ++ t) = (String.length s + String.length t)%nat.
Proof.
  induction s as [|c s IH]; [done|]. rewrite app_cons_string. simpl.
  by rewrite IH.
Qed.

Lemma slice_to_length (n : nat) (s : string) :
  String.length (slice_to n s) = (n `min` String.length s)%nat.
Proof.
  revert s; induction n as [|n IH]; intros [|c s]; simpl; auto.
Qed.

Lemma slice_to_from (n : nat) (s : string) :
  slice_to n s ++ slice_from n s = s.
Proof.
  revert s; induction n as [|n IH]; intros [|c s]; simpl; auto.
  by rewrite app_cons_string, IH.
Qed.

Lemma slice_to_all (n : nat) (s : string) :
  (String.length s ≤ n)%nat → slice_to n s = s.
Proof.
  revert s; induction n as [|n IH]; intros [|c s]; simpl; auto; try lia.
  intros H. rewrite IH; [done | lia].
Qed.

Lemma slice_to_app (t rest : string) :
  slice_to (String.length t) (t ++ rest) = t.
Proof.
  induction t as [|c t IH]; [by destruct rest|].
  rewrite app_cons_string. simpl. by rewrite IH.
Qed.

Lemma slice_to_capped (cap : nat) (s : string) : capped cap s (slice_to cap s).
Proof.
  repeat split.
  - rewrite slice_to_length. lia.
  - exists (slice_from cap s). by rewrite slice_to_from.
  - apply slice_to_all.
  - intros H. rewrite slice_to_length. lia.
Qed.

(** [capped] leaves no choice: the stored text is the slice. *)
Lemma capped_unique (cap : nat) (s t : string) :
  capped cap s t → t = slice_to cap s.
Proof.
  intros (Hle & [rest ->] & Hfit & Hcut).
  destruct (decide (String.length (t ++ rest) ≤ cap)%nat) as [Hs|Hs].
  - rewrite (Hfit Hs) at 1. by rewrite slice_to_all.
  - rewrite <- (Hcut ltac:(lia)). by rewrite slice_to_app.
Qed.

(** ** Formatting *)

Lemma is_ok_prepend (s : string) (r : result string) :
  is_ok (prepend s r) = is_ok r.
Proof. by destruct r. Qed.

Lemma prepend_raise (s : string) (r : result string) (e : exn) :
  prepend s r = Raise e → r = Raise e.
Proof. destruct r; simpl; congruence. Qed.

Lemma is_ok_field_value (kw1 kw2 : gmap string string) (name : string) :
  (∀ k, is_Some (kw1 !! k) ↔ is_Some (kw2 !! k)) →
  is_ok (field_value kw1 name) = is_ok (field_value kw2 name).
Proof.
  intros Hdom. unfold field_value.
  destruct (all_digits name); [by destruct (_ <? _)%N|].
  specialize (Hdom name).
  destruct (kw1 !! name) as [v1|] eqn:E1, (kw2 !! name) as [v2|] eqn:E2;
    simpl; try done.
  - destruct Hdom as [H _]. destruct H as [? ?]; [by eexists | done].
  - destruct Hdom as [_ H]. destruct H as [? ?]; [by eexists | done].
Qed.

Lemma field_value_raise_dom (kw1 kw2 : gmap string string) (name : string) (e : exn) :
  (∀ k, is_Some (kw1 !! k) ↔ is_Some (kw2 !! k)) →
  field_value kw1 name = Raise e → field_value kw2 name = Raise e.
Proof.
  intros Hdom. unfold field_value.
  destruct (all_digits name); [done|].
  destruct (kw1 !! name) as [v1|] eqn:E1; [done|].
  destruct (kw2 !! name) as [v2|] eqn:E2; [|done].
  destruct (proj2 (Hdom name)) as [v Hv]; [by eexists | congruence].
Qed.

Section PlainTemplates.

Variable format_special :
  string → ascii → string → gmap string string → result string.

(** Whether formatting a plain template succeeds depends on the keys
    offered, not on the values substituted. *)
Lemma format_from_ok_dom (kw1 kw2 : gmap string string) :
  (∀ k, is_Some (kw1 !! k) ↔ is_Some (kw2 !! k)) →
  ∀ t st, plain_from st t = true →
          is_ok (format_from format_special kw1 st t)
          = is_ok (format_from format_special kw2 st t).
Proof using Type.
  intros Hdom t. induction t as [|c t IH]; intros st Hplain; simpl in *.
  - by destruct st.
  - destruct st as [| |name|]; repeat case_bool_decide;
      try destruct (field_special c); try done; try (by apply IH).
    all: try match goal with
             | |- context [field_value _ ?n] =>
                 pose proof (is_ok_field_value kw1 kw2 n Hdom) as Hf;
                 destruct (field_value kw1 n), (field_value kw2 n);
                 simpl in Hf; try done
             end.
    all: rewrite !is_ok_prepend; by apply IH.
Qed.

(** The exception of a failing plain template is decided by the keys
    offered too. *)
Lemma format_from_raise_dom (kw1 kw2 : gmap string string) :
  (∀ k, is_Some (kw1 !! k) ↔ is_Some (kw2 !! k)) →
  ∀ t st e, plain_from st t = true →
            format_from format_special kw1 st t = Raise e →
            format_from format_special kw2 st t = Raise e.
Proof using Type.
  intros Hdom t. induction t as [|c t IH]; intros st e Hplain; simpl in *.
  - by destruct st.
  - destruct st as [| |name|]; repeat case_bool_decide;
      try destruct (field_special c); try done; try (by apply IH).
    all: try match goal with
             | |- context [field_value _ ?n] =>
                 pose proof (is_ok_field_value kw1 kw2 n Hdom) as Hok;
                 pose proof (field_value_raise_dom kw1 kw2 n) as Hraise;
                 destruct (field_value kw1 n) as [v1|e1];
                 [destruct (field_value kw2 n) as [v2|e2]; [|done]
                 |intros [= <-]; by rewrite (Hraise e1 Hdom eq_refl)]
             end.
    all: intros Hrest%prepend_raise; by rewrite (IH _ _ Hplain Hrest).
Qed.

Lemma two_keys_dom (a b va vb : string) (k : string) :
  is_Some ((<[b := ""]> {[a := ""]} : gmap string string) !! k)
  ↔ is_Some ((<[b := vb]> {[a := va]} : gmap string string) !! k).
Proof using Type.
  rewrite !lookup_insert. case_decide; [by split; eauto|].
  rewrite !lookup_singleton. case_decide; by split.
Qed.

Lemma format_ok_dom (t a b va vb : string) :
  plain_template t = true →
  template_fits format_special t a b = true →
  ∃ text, format format_special t (<[b := vb]> {[a := va]}) = Ok text.
Proof using Type.
  unfold template_fits, format, plain_template. intros Hplain H.
  rewrite (format_from_ok_dom _ (<[b := vb]> {[a := va]})) in H;
    [|apply two_keys_dom|done].
  destruct (format_from _ _ Literal t) as [text|e]; [by exists text | done].
Qed.

Lemma format_raise_dom (t a b va vb : string) (e : exn) :
  plain_template t = true →
  format format_special t (<[b := ""]> {[a := ""]}) = Raise e →
  format format_special t (<[b := vb]> {[a := va]}) = Raise e.
Proof using Type.
  unfold format, plain_template. intros Hplain.
  apply format_from_raise_dom; [apply two_keys_dom | done].
Qed.

End PlainTemplates.

(** A plain template is formatted alike whatever is taken for the part of
    [str.format] it never reaches. *)
Lemma format_from_plain_ext
    (special1 special2 : string → ascii → string → gmap string string → result string)
    (kwargs : gmap string string) :
  ∀ t st, plain_from st t = true →
          format_from special1 kwargs st t = format_from special2 kwargs st t.
Proof.
  intros t. induction t as [|c t IH]; intros st Hplain; simpl in *; [done|].
  destruct st as [| |name|]; repeat case_bool_decide;
    try destruct (field_special c); try done;
    try destruct (field_value kwargs _); try done;
    rewrite ?(IH _ Hplain); try done; by apply IH.
Qed.

(** ** The append loop *)

Lemma for_each_append_inv {A B : Type} (body : A → result B) (xs : list A) :
  ∀ acc out,
    for_each_append body xs acc = Ok out →
    ∃ bs, out = (acc ++ bs)%list ∧ Forall2 (λ x b, body x = Ok b) xs bs.
Proof.
  induction xs as [|x xs IH]; intros acc out; simpl.
  - intros [= <-]. exists []. by rewrite app_nil_r.
  - destruct (body x) as [b|e] eqn:Hb; [|done].
    intros H. destruct (IH _ _ H) as (bs & -> & Hall).
    exists (b :: bs). split; [by rewrite <- app_assoc | by constructor].
Qed.

Lemma for_each_append_total {A B : Type} (body : A → result B) (xs : list A) :
  Forall (λ x, is_ok (body x) = true) xs →
  ∀ acc, ∃ out, for_each_append body xs acc = Ok out.
Proof.
  induction 1 as [|x xs Hx _ IH]; intros acc; simpl; [by eexists|].
  destruct (body x); [apply IH | done].
Qed.

Lemma for_each_append_raise {A B : Type} (body : A → result B) (xs : list A) :
  ∀ acc e,
    for_each_append body xs acc = Raise e →
    ∃ x, x ∈ xs ∧ body x = Raise e.
Proof.
  induction xs as [|x xs IH]; intros acc e; simpl; [done|].
  destruct (body x) as [b|e'] eqn:Hb.
  - intros H. destruct (IH _ _ H) as (y & Hy & Hr).
    exists y. split; [by right | done].
  - intros [= ->]. exists x. split; [by left | done].
Qed.

(** ** Properties of the handlers *)

Section Properties.

Variable gettext : string → string.
Variable format_special :
  string → ascii → string → gmap string string → result string.
Variables User_groups Asset_nodes : string.
Variables AssetPermission_users AssetPermission_user_groups : string.
Variables AssetPermission_assets AssetPermission_nodes : string.
Variable get_request_ip : HttpRequest → string.
Variable AUTH_BACKEND_LABEL_MAPPING : gmap string string.
Variable BACKEND_SESSION_KEY : string.
Variable now : Z.
Variable strftime : Z → string.

Local Abbreviation registry :=
  (M2M_NEED_RECORD gettext User_groups Asset_nodes AssetPermission_users
     AssetPermission_user_groups AssetPermission_assets AssetPermission_nodes).
Local Abbreviation m2m_changed :=
  (on_m2m_changed gettext format_special User_groups Asset_nodes AssetPermission_users
     AssetPermission_user_groups AssetPermission_assets AssetPermission_nodes
     get_request_ip).
Local Abbreviation data_for := (generate_data get_request_ip
     AUTH_BACKEND_LABEL_MAPPING BACKEND_SESSION_KEY now).
Local Abbreviation auth_success := (on_user_auth_success get_request_ip
     AUTH_BACKEND_LABEL_MAPPING BACKEND_SESSION_KEY now strftime).
Local Abbreviation auth_failed := (on_user_auth_failed get_request_ip
     AUTH_BACKEND_LABEL_MAPPING BACKEND_SESSION_KEY now).

(** *** The loop body *)

Lemma operate_log_for_inv user action resource_type tmpl remote_addr org_id
    instance_name instance_value model_name obj r :
  operate_log_for format_special user action resource_type tmpl remote_addr
    org_id instance_name instance_value model_name obj = Ok r →
  shares user action resource_type remote_addr org_id r
  ∧ ∃ text,
      format format_special tmpl
        (format_kwargs instance_name instance_value model_name (obj_str obj))
      = Ok text
      ∧ ol_resource r = slice_to 128 text.
Proof using Type.
  unfold operate_log_for.
  destruct (format _ tmpl _) as [text|e]; [|done].
  intros [= <-]. split; [by repeat split | by exists text].
Qed.

Lemma operate_log_for_ok user action resource_type tmpl remote_addr org_id
    instance_name instance_value model_name obj :
  is_ok (operate_log_for format_special user action resource_type tmpl
           remote_addr org_id instance_name instance_value model_name obj)
  = is_ok (format format_special tmpl
             (format_kwargs instance_name instance_value model_name (obj_str obj))).
Proof using Type.
  unfold operate_log_for. by destruct (format _ tmpl _).
Qed.

(** What the handler does once its three guards have passed. *)
Lemma m2m_changed_recorded amb sender action instance model pk_set request
    resource_type tmpl_add tmpl_remove :
  recorded_action action →
  current_request amb = Some request →
  is_authenticated (req_user request) = true →
  registry !! cls_name sender = Some (resource_type, tmpl_add, tmpl_remove) →
  m2m_changed amb sender action instance model pk_set =
    match pk_set with
    | None => Raised [] TypeError
    | Some pks =>
        let printed :=
          Print ("Instace name:  " ++ instance_name_of instance ++ " "
                 ++ obj_str instance) in
        match for_each_append
                (operate_log_for format_special (user_str (req_user request))
                   (action_of action) resource_type
                   (template_of action tmpl_add tmpl_remove)
                   (get_request_ip request) (current_org_id amb)
                   (instance_name_of instance) (obj_str instance)
                   (cls_name (model_class model)))
                (filter_pk_in model pks) [] with
        | Ok to_create => Returned [printed; BulkCreate to_create]
        | Raise e => Raised [printed] e
        end
    end.
Proof using Type.
  intros Hact Hreq Hauth Hreg. unfold on_m2m_changed.
  rewrite Hreq, Hauth, Hreg.
  by destruct Hact as [-> | [-> | ->]].
Qed.

(** C1, amended.  A relation-changed event whose action is add, remove or
    clear, with an authenticated actor and a registered sender, that
    carries a set of primary keys resolving to N related instances, and
    whose selected template formats without error for each of them, makes
    the handler return after one single [bulk_create] of exactly N records;
    they all carry the actor, the mapped action, the registered category,
    the request address and the organisation, and the resource of the i-th
    one is the text formatted for the i-th related instance, cut to 128
    characters. *)
Theorem relation_change_one_batch amb sender action instance model pks
    request resource_type tmpl_add tmpl_remove :
  recorded_action action →
  current_request amb = Some request →
  is_authenticated (req_user request) = true →
  registry !! cls_name sender = Some (resource_type, tmpl_add, tmpl_remove) →
  Forall (λ obj,
            is_ok (format format_special (template_of action tmpl_add tmpl_remove)
                     (format_kwargs (instance_name_of instance) (obj_str instance)
                        (cls_name (model_class model)) (obj_str obj))) = true)
         (filter_pk_in model pks) →
  ∃ printed to_create,
    m2m_changed amb sender action instance model (Some pks)
      = Returned [printed; BulkCreate to_create]
    ∧ length to_create = length (filter_pk_in model pks)
    ∧ Forall (shares (user_str (req_user request)) (action_of action)
                resource_type (get_request_ip request) (current_org_id amb))
             to_create
    ∧ Forall2 (λ obj r, ∃ text,
                 format format_special (template_of action tmpl_add tmpl_remove)
                   (format_kwargs (instance_name_of instance) (obj_str instance)
                      (cls_name (model_class model)) (obj_str obj)) = Ok text
                 ∧ ol_resource r = slice_to 128 text)
              (filter_pk_in model pks) to_create.
Proof using Type.
  intros Hact Hreq Hauth Hreg Hfits.
  rewrite (m2m_changed_recorded _ _ _ _ _ _ _ _ _ _ Hact Hreq Hauth Hreg).
  cbv zeta.
  set (body := operate_log_for _ _ _ _ _ _ _ _ _ _).
  destruct (for_each_append_total body (filter_pk_in model pks))
    with (acc := @nil OperateLog) as [out Hout].
  { eapply Forall_impl; [exact Hfits|]. intros obj Hobj. simpl in Hobj.
    unfold body. by rewrite operate_log_for_ok. }
  rewrite Hout. destruct (for_each_append_inv _ _ _ _ Hout) as (bs & -> & Hall).
  simpl. eexists _, bs. split; [done|].
  split; [symmetry; by eapply Forall2_length|].
  split.
  - clear Hout. induction Hall as [|obj r objs rs Hr _ IH]; constructor.
    + by destruct (operate_log_for_inv _ _ _ _ _ _ _ _ _ _ _ Hr).
    + apply IH. by apply Forall_cons in Hfits as [_ ?].
  - eapply Forall2_impl; [exact Hall|]. intros obj r Hr.
    by destruct (operate_log_for_inv _ _ _ _ _ _ _ _ _ _ _ Hr).
Qed.

(** *** The guards of the relation-change handler *)

Lemma records_of_returned_nil : records_of (Returned []) = [].
Proof. reflexivity. Qed.

(** Either the three guards pass, or the handler returns at once, having
    done nothing. *)
Lemma m2m_changed_guarded amb sender action instance model pk_set :
  (recorded_action action ∧ authenticated_actor amb ∧ registered registry sender)
  ∨ m2m_changed amb sender action instance model pk_set = Returned [].
Proof using Type.
  unfold on_m2m_changed, recorded_action, authenticated_actor, registered.
  destruct (current_request amb) as [request|] eqn:Hreq;
    [destruct (is_authenticated (req_user request)) eqn:Hauth;
     [destruct (registry !! cls_name sender) as [[[rt ta] tr]|] eqn:Hreg|]|].
  - destruct action; simpl; try (by right); left;
      (split; [auto | split; [by exists request | by eexists]]).
  - right. by destruct action.
  - right. by destruct action.
  - right. by destruct action.
Qed.

(** C2.  The relation-change handler persists a record only when the
    action is add, remove or clear, the ambient actor exists and is
    authenticated, and the sender is a key of the registry; when any of the
    three fails it returns without any effect and without raising. *)
Theorem relation_change_guards amb sender action instance model pk_set :
  (records_of (m2m_changed amb sender action instance model pk_set) ≠ [] →
   recorded_action action ∧ authenticated_actor amb ∧ registered registry sender)
  ∧ (¬ (recorded_action action ∧ authenticated_actor amb ∧ registered registry sender) →
     m2m_changed amb sender action instance model pk_set = Returned []).
Proof using Type.
  destruct (m2m_changed_guarded amb sender action instance model pk_set)
    as [Hpass | Hnoop].
  - split; [done | by intros []].
  - rewrite Hnoop. split; [by rewrite records_of_returned_nil | done].
Qed.

(** *** Saves *)

Lemma skip_guard_spec (instance : PyObj) (update_fields : option (gset string)) :
  bool_decide (cls_name (obj_class instance) = "User")
    && truthy_fields update_fields
    && contains_field "last_login" update_fields = true
  ↔ cls_name (obj_class instance) = "User"
    ∧ ∃ fs, update_fields = Some fs ∧ "last_login" ∈ fs.
Proof using Type.
  split.
  - intros H. apply andb_true_iff in H as [H Hc].
    apply andb_true_iff in H as [Hu _].
    destruct update_fields as [fs|]; simpl in Hc; [|done].
    apply bool_decide_eq_true in Hu, Hc. eauto.
  - intros [Hu (fs & -> & Hin)]. simpl.
    rewrite (bool_decide_eq_true_2 _ Hu), (bool_decide_eq_true_2 _ Hin).
    rewrite bool_decide_eq_false_2; [done|].
    intros ->. exact (not_elem_of_empty _ Hin).
Qed.

(** C3, amended.  The entity-saved handler skips the audit exactly when
    the saved entity is named [User] and the changed fields are given and
    contain [last_login], whatever else they contain; every other save is
    handed to [create_operate_log], as a create when the entity was created
    and as an update otherwise. *)
Theorem save_skipped_iff sender instance created update_fields :
  (on_object_created_or_update sender instance created update_fields = Returned []
   ↔ cls_name (obj_class instance) = "User"
     ∧ ∃ fs, update_fields = Some fs ∧ "last_login" ∈ fs)
  ∧ (¬ (cls_name (obj_class instance) = "User"
        ∧ ∃ fs, update_fields = Some fs ∧ "last_login" ∈ fs) →
     on_object_created_or_update sender instance created update_fields
       = Returned [CreateOperateLog (if created then create else update)
                     sender instance]).
Proof using Type.
  pose proof (skip_guard_spec instance update_fields) as Hspec.
  unfold on_object_created_or_update.
  destruct (_ && _ && _) eqn:Hguard.
  - split; [split; [intros _; by apply Hspec | done]|].
    intros Hno. destruct Hno. by apply Hspec.
  - split; [|done].
    split; [done|]. intros H. apply Hspec in H. done.
Qed.

(** *** The registry *)

Local Abbreviation relation_names :=
  [User_groups; Asset_nodes; AssetPermission_users; AssetPermission_user_groups;
   AssetPermission_assets; AssetPermission_nodes].

Lemma registry_dom : dom registry = list_to_set relation_names.
Proof using Type.
  unfold M2M_NEED_RECORD. rewrite !dom_insert_L, dom_empty_L.
  apply set_eq. intros name. rewrite elem_of_list_to_set.
  rewrite !elem_of_union, !elem_of_singleton, !elem_of_cons.
  rewrite elem_of_empty, elem_of_nil.
  split; intros [?|[?|[?|[?|[?|[?|[]]]]]]]; auto 10.
Qed.

Lemma registered_iff (name : string) :
  is_Some (registry !! name) ↔ name ∈ relation_names.
Proof using Type.
  rewrite <- elem_of_dom, registry_dom. apply elem_of_list_to_set.
Qed.

(** C4, amended.  With pairwise distinct through-model names, the registry
    holds exactly six relation kinds, user and group, asset and node, and
    the four relations of a permission to users, user groups, assets and
    nodes; a sender outside these six produces no audit record. *)
Theorem registry_six_relations :
  NoDup relation_names →
  size registry = 6%nat
  ∧ (∀ name, is_Some (registry !! name) ↔ name ∈ relation_names)
  ∧ (∀ amb sender action instance model pk_set,
       cls_name sender ∉ relation_names →
       m2m_changed amb sender action instance model pk_set = Returned []).
Proof using Type.
  intros Hnodup. split; [|split].
  - rewrite <- size_dom, registry_dom.
    by rewrite (size_list_to_set _ Hnodup).
  - apply registered_iff.
  - intros amb sender action instance model pk_set Hout.
    destruct (m2m_changed_guarded amb sender action instance model pk_set)
      as [(_ & _ & Hreg) | Hnoop]; [|done].
    by apply registered_iff in Hreg.
Qed.

(** *** Where the records of a relation change come from *)

Lemma m2m_changed_records amb sender action instance model pk_set r :
  r ∈ records_of (m2m_changed amb sender action instance model pk_set) →
  ∃ pks request resource_type tmpl_add tmpl_remove obj,
    pk_set = Some pks
    ∧ current_request amb = Some request
    ∧ registry !! cls_name sender = Some (resource_type, tmpl_add, tmpl_remove)
    ∧ obj ∈ filter_pk_in model pks
    ∧ operate_log_for format_special (user_str (req_user request))
        (action_of action) resource_type
        (template_of action tmpl_add tmpl_remove)
        (get_request_ip request) (current_org_id amb)
        (instance_name_of instance) (obj_str instance)
        (cls_name (model_class model)) obj = Ok r.
Proof using Type.
  destruct (m2m_changed_guarded amb sender action instance model pk_set)
    as [(Hact & (request & Hreq & Hauth) & [[[rt ta] tr] Hreg]) | Hnoop].
  - rewrite (m2m_changed_recorded _ _ _ _ _ _ _ _ _ _ Hact Hreq Hauth Hreg).
    destruct pk_set as [pks|];
      [|unfold records_of; simpl; by intros ?%elem_of_nil].
    cbv zeta.
    destruct (for_each_append _ _ _) as [out|e] eqn:Hloop.
    + destruct (for_each_append_inv _ _ _ _ Hloop) as (bs & -> & Hall).
      unfold records_of. simpl. rewrite app_nil_r.
      intros [i Hi]%list_elem_of_lookup_1.
      destruct (Forall2_lookup_r _ _ _ _ _ Hall Hi) as (obj & Hobj & Hr).
      exists pks, request, rt, ta, tr, obj.
      repeat split; try done. by eapply list_elem_of_lookup_2.
    + unfold records_of. simpl. by intros ?%elem_of_nil.
  - rewrite Hnoop. unfold records_of. simpl. by intros ?%elem_of_nil.
Qed.

(** *** Capped text fields *)

(** C5, amended.  Over-long text is cut, never rejected.  The resource of
    every record a relation change persists is the text of the registered
    template the action selects, formatted for the owner and one of the
    related instances found, cut to 128 characters; the [user_agent] handed
    to [write_login_log], on success and on failure, is the request's user
    agent cut to 254 characters; the failure reason is the given reason cut
    to 128 characters. *)
Theorem text_fields_capped :
  (∀ amb sender action instance model pk_set r,
     r ∈ records_of (m2m_changed amb sender action instance model pk_set) →
     ∃ pks resource_type tmpl_add tmpl_remove obj text,
       pk_set = Some pks
       ∧ registry !! cls_name sender = Some (resource_type, tmpl_add, tmpl_remove)
       ∧ obj ∈ filter_pk_in model pks
       ∧ format format_special (template_of action tmpl_add tmpl_remove)
           (format_kwargs (instance_name_of instance) (obj_str instance)
              (cls_name (model_class model)) (obj_str obj)) = Ok text
       ∧ capped 128 text (ol_resource r))
  ∧ (∀ sender user request login_type,
       ∃ checked stamped data,
         auth_success sender user request login_type
           = Returned [checked; stamped; WriteLoginLog data]
         ∧ capped 254 (dict_get (META request) "HTTP_USER_AGENT" "")
             (ld_user_agent data))
  ∧ (∀ sender username request reason,
       ∃ data stored,
         auth_failed sender username request reason = Returned [WriteLoginLog data]
         ∧ capped 254 (dict_get (META request) "HTTP_USER_AGENT" "")
             (ld_user_agent data)
         ∧ ld_reason data = Some stored
         ∧ capped 128 (default "" reason) stored).
Proof using Type.
  split; [|split].
  - intros amb sender action instance model pk_set r Hr.
    destruct (m2m_changed_records _ _ _ _ _ _ _ Hr)
      as (pks & request & rt & ta & tr & obj & Hpks & _ & Hreg & Hobj & Hbuilt).
    destruct (operate_log_for_inv _ _ _ _ _ _ _ _ _ _ _ Hbuilt)
      as (_ & text & Htext & ->).
    exists pks, rt, ta, tr, obj, text.
    repeat split; try done; apply slice_to_capped.
  - intros sender user request login_type. eexists _, _, _.
    split; [reflexivity|]. simpl. apply slice_to_capped.
  - intros sender username request reason. eexists _, _.
    split; [reflexivity|]. simpl.
    split; [apply slice_to_capped|]. split; [reflexivity|].
    apply slice_to_capped.
Qed.

(** *** The substitution key of the owning side *)

Lemma m2m_changed_owner_ext amb sender action instance instance' model pk_set :
  instance_name_of instance = instance_name_of instance' →
  obj_str instance = obj_str instance' →
  m2m_changed amb sender action instance model pk_set
  = m2m_changed amb sender action instance' model pk_set.
Proof using Type.
  intros Hname Hstr. unfold on_m2m_changed. by rewrite Hname, Hstr.
Qed.

(** C6, amended.  Only [Asset] is resolved to its base name: an owner
    instance of [Asset] or of any subtype of it is substituted under the
    key [Asset], and the handler treats it as it treats a plain [Asset] with
    the same display text; an owner instance of any other class, subtype of
    a registered type or not, is substituted under the name of its runtime
    class. *)
Theorem owner_key_asset_only instance :
  (isinstance instance Asset = true →
   instance_name_of instance = "Asset"
   ∧ ∀ amb sender action model pk_set,
       m2m_changed amb sender action instance model pk_set
       = m2m_changed amb sender action
           (mkObj Asset (obj_pk instance) (obj_str instance)) model pk_set)
  ∧ (isinstance instance Asset = false →
     instance_name_of instance = cls_name (obj_class instance)).
Proof using Type.
  unfold instance_name_of. split; intros Hinst; rewrite Hinst; [|done].
  split; [done|]. intros amb sender action model pk_set.
  apply m2m_changed_owner_ext; [|done].
  unfold instance_name_of. by rewrite Hinst.
Qed.

(** *** Password changes *)

(** C7.  A password change writes exactly one [PasswordChangeLog] for the
    subject user: without a request context it is changed by [System] from
    [127.0.0.1]; with one, the address is taken from the request and the
    change is by the subject user when the context user is not
    authenticated, by the context user otherwise. *)
Theorem password_change_logged amb sender user :
  ∃ log,
    on_user_change_password get_request_ip amb sender user
      = Returned [CreatePasswordChangeLog log]
    ∧ pcl_user log = user_str user
    ∧ match current_request amb with
      | None => pcl_change_by log = "System" ∧ pcl_remote_addr log = "127.0.0.1"
      | Some request =>
          pcl_remote_addr log = get_request_ip request
          ∧ pcl_change_by log =
              if is_authenticated (req_user request)
              then user_str (req_user request)
              else user_str user
      end.
Proof using Type.
  unfold on_user_change_password.
  destruct (current_request amb) as [request|]; simpl.
  - eexists. split; [reflexivity|]. simpl.
    by destruct (is_authenticated (req_user request)).
  - eexists. split; [reflexivity|]. done.
Qed.

(** *** Authentication *)

(** C8.  An authentication failure hands [write_login_log] one record with
    status false whose reason is the supplied reason cut to at most 128
    characters, and the empty string when no reason is supplied. *)
Theorem auth_failed_reason sender username request reason :
  ∃ data,
    auth_failed sender username request reason = Returned [WriteLoginLog data]
    ∧ ld_status data = Some false
    ∧ ld_reason data = Some (slice_to 128 (default "" reason))
    ∧ capped 128 (default "" reason) (slice_to 128 (default "" reason))
    ∧ (reason = None → ld_reason data = Some "").
Proof using Type.
  eexists. split; [reflexivity|]. simpl.
  split; [done|]. split; [done|]. split; [apply slice_to_capped|].
  by intros ->.
Qed.

Lemma login_type_of_data name request login_type :
  ld_type (data_for name request login_type) =
    match login_type with
    | Some t => t
    | None =>
        if is_drf_request request
        then dict_get (META request) "HTTP_X_JMS_LOGIN_TYPE" "U"
        else "W"
    end.
Proof using Type.
  unfold generate_data. simpl.
  destruct login_type; [done|]. by destruct (is_drf_request request).
Qed.

(** C9.  With no explicit login type, the type recorded for a REST
    framework request is the value of the [X-JMS-LOGIN-TYPE] header
    ([HTTP_X_JMS_LOGIN_TYPE] in [META]), and the type recorded for any other
    request is [W]; both authentication handlers record the type so
    computed. *)
Theorem login_type_default name request :
  (∀ v, is_drf_request request = true →
        META request !! "HTTP_X_JMS_LOGIN_TYPE" = Some v →
        ld_type (data_for name request None) = v)
  ∧ (is_drf_request request = false →
     ld_type (data_for name request None) = "W")
  ∧ (∀ sender user,
       ∃ checked stamped data,
         auth_success sender user request None
           = Returned [checked; stamped; WriteLoginLog data]
         ∧ ld_type data = ld_type (data_for (username user) request None))
  ∧ (∀ sender reason,
       ∃ data,
         auth_failed sender name request reason = Returned [WriteLoginLog data]
         ∧ ld_type data = ld_type (data_for name request None)).
Proof using Type.
  split; [|split; [|split]].
  - intros v Hdrf Hheader.
    rewrite login_type_of_data. unfold dict_get. by rewrite Hdrf, Hheader.
  - intros Hdrf. rewrite login_type_of_data. by rewrite Hdrf.
  - intros sender user. eexists _, _, _. split; reflexivity.
  - intros sender reason. eexists. split; reflexivity.
Qed.

(** C10, amended.  With no explicit login type, a REST framework request
    without the [X-JMS-LOGIN-TYPE] header is recorded with the literal type
    [U], which differs from the web default [W]; the type [U] is recorded
    in exactly these cases: it is given explicitly, or no type is given and
    the request is a REST framework request whose header is absent or
    itself carries [U]. *)
Theorem login_type_unknown name request login_type :
  (login_type = None → is_drf_request request = true →
   META request !! "HTTP_X_JMS_LOGIN_TYPE" = None →
   ld_type (data_for name request login_type) = "U")
  ∧ "U" ≠ "W"
  ∧ (ld_type (data_for name request login_type) = "U"
     ↔ login_type = Some "U"
       ∨ (login_type = None ∧ is_drf_request request = true
          ∧ (META request !! "HTTP_X_JMS_LOGIN_TYPE" = None
             ∨ META request !! "HTTP_X_JMS_LOGIN_TYPE" = Some "U"))).
Proof using Type.
  rewrite login_type_of_data. unfold dict_get.
  split; [by intros -> -> ->|]. split; [done|].
  destruct login_type as [t|].
  - split; [intros ->; by left|]. by intros [[= ->] | [? _]].
  - destruct (is_drf_request request).
    + destruct (META request !! "HTTP_X_JMS_LOGIN_TYPE") as [v|].
      * split; [intros ->; right; auto|].
        by intros [? | (_ & _ & [? | [= ->]])].
      * split; [right; auto | done].
    + split; [done|]. by intros [? | (_ & ? & _)].
Qed.

End Properties.

(** ** The handlers on sample events *)

Example format_join :
  format Sample.special "{User} JOINED {UserGroup}"
         (<["UserGroup" := "admins"]> {["User" := "alice"]})
  = Ok "alice JOINED admins".
Proof. vm_compute. reflexivity. Qed.

(** bob adds alice to the groups admins and ops; the key 99 matches no
    group. *)
Example alice_joins_groups :
  Sample.m2m_changed Sample.by_bob (Sample.through "User_groups") POST_ADD
    Sample.alice Sample.groups (Some {[10%Z; 11%Z; 99%Z]})
  = Returned
      [Print "Instace name:  User alice";
       BulkCreate
         [mkOperateLog "bob" create "User and Group" "alice JOINED admins"
            "10.0.0.7" "org-1";
          mkOperateLog "bob" create "User and Group" "alice JOINED ops"
            "10.0.0.7" "org-1"]].
Proof. vm_compute. reflexivity. Qed.

(** The same relation changed from the group's side. *)
Example admins_gains_alice :
  Sample.m2m_changed Sample.by_bob (Sample.through "User_groups") POST_ADD
    Sample.admins Sample.users (Some {[1%Z]})
  = Returned
      [Print "Instace name:  UserGroup admins";
       BulkCreate
         [mkOperateLog "bob" create "User and Group" "alice JOINED admins"
            "10.0.0.7" "org-1"]].
Proof. vm_compute. reflexivity. Qed.

Example host_leaves_node :
  Sample.m2m_changed Sample.by_bob (Sample.through "Asset_nodes") POST_REMOVE
    Sample.web1 Sample.nodes (Some {[30%Z]})
  = Returned
      [Print "Instace name:  Asset web1";
       BulkCreate
         [mkOperateLog "bob" delete "Node and Asset" "/Default REMOVE web1"
            "10.0.0.7" "org-1"]].
Proof. vm_compute. reflexivity. Qed.

Example anonymous_change_ignored :
  Sample.m2m_changed Sample.by_anonymous (Sample.through "User_groups") POST_ADD
    Sample.alice Sample.groups (Some {[10%Z]})
  = Returned [].
Proof. vm_compute. reflexivity. Qed.

(** A clear as Django sends it, without a set of primary keys. *)
Example nodes_cleared :
  Sample.m2m_changed Sample.by_bob (Sample.through "Asset_nodes") POST_CLEAR
    Sample.web1 Sample.nodes None
  = Raised [] TypeError.
Proof. vm_compute. reflexivity. Qed.

Example password_change_without_context :
  on_user_change_password Sample.ip_of Sample.no_context Sample.User
    (mkUser "carol" "carol" true false)
  = Returned [CreatePasswordChangeLog (mkPasswordChangeLog "carol" "System" "127.0.0.1")].
Proof. reflexivity. Qed.

Example failed_login_long_reason :
  ∃ data,
    Sample.auth_failed Sample.User "dave" (Sample.web_request Sample.anonymous)
      (Some (Sample.text 200))
    = Returned [WriteLoginLog data]
    ∧ ld_reason data = Some (Sample.text 128)
    ∧ ld_status data = Some false
    ∧ ld_type data = "W".
Proof. eexists. split; [reflexivity|]. vm_compute. done. Qed.

(** ** Witnesses and counterexamples *)

(** [relation_change_one_batch] on bob adding alice to two groups. *)
Lemma relation_change_one_batch_witness :
  ∃ printed to_create,
    Sample.m2m_changed Sample.by_bob (Sample.through "User_groups") POST_ADD
      Sample.alice Sample.groups (Some {[10%Z; 11%Z; 99%Z]})
    = Returned [printed; BulkCreate to_create]
    ∧ length to_create = 2%nat
    ∧ Forall (shares "bob" create "User and Group" "10.0.0.7" "org-1") to_create.
Proof.
  assert (filter_pk_in Sample.groups {[10%Z; 11%Z; 99%Z]}
          = [Sample.admins; Sample.ops]) as Hobjs.
  { vm_compute. reflexivity. }
  destruct (relation_change_one_batch id Sample.special "User_groups" "Asset_nodes"
              "AssetPermission_users" "AssetPermission_user_groups"
              "AssetPermission_assets" "AssetPermission_nodes" Sample.ip_of
              Sample.by_bob (Sample.through "User_groups") POST_ADD
              Sample.alice Sample.groups {[10%Z; 11%Z; 99%Z]}
              (Sample.web_request Sample.bob)
              "User and Group" "{User} JOINED {UserGroup}" "{User} LEFT {UserGroup}")
    as (printed & to_create & Heq & Hlen & Hshare & _).
  - left. reflexivity.
  - reflexivity.
  - reflexivity.
  - vm_compute. reflexivity.
  - rewrite Hobjs. repeat constructor; vm_compute; reflexivity.
  - exists printed, to_create.
    split; [exact Heq|]. split; [rewrite Hlen, Hobjs; reflexivity|].
    exact Hshare.
Defined.

(** C1 as stated fails: bob adds a group to carol, whose class is a subtype
    of [User].  The action is add, the actor is authenticated, the sender is
    registered and the key resolves to one group, yet formatting raises
    [KeyError] and nothing is persisted. *)
Lemma relation_change_key_error :
  recorded_action POST_ADD
  ∧ authenticated_actor Sample.by_bob
  ∧ registered Sample.registry (Sample.through "User_groups")
  ∧ length (filter_pk_in Sample.groups {[10%Z]}) = 1%nat
  ∧ Sample.m2m_changed Sample.by_bob (Sample.through "User_groups") POST_ADD
      Sample.carol_staff Sample.groups (Some {[10%Z]})
    = Raised [Print "Instace name:  StaffUser carol"] (KeyError "User")
  ∧ records_of
      (Sample.m2m_changed Sample.by_bob (Sample.through "User_groups") POST_ADD
         Sample.carol_staff Sample.groups (Some {[10%Z]})) = [].
Proof.
  split; [by left|].
  split; [exists (Sample.web_request Sample.bob); by split|].
  split; [by vm_compute; eexists|].
  repeat split; vm_compute; reflexivity.
Qed.

(** C3 as stated fails: a save of a user that changes [last_login]
    together with [email] is skipped too. *)
Lemma save_with_other_field_skipped :
  on_object_created_or_update Sample.User Sample.alice false
    (Some {["last_login"; "email"]})
  = Returned [].
Proof. vm_compute. reflexivity. Qed.

(** [registry_six_relations] on the names Django gives the through models. *)
Lemma registry_six_relations_witness :
  NoDup Sample.names
  ∧ size Sample.registry = 6%nat
  ∧ (∀ amb sender action instance model pk_set,
       cls_name sender ∉ Sample.names →
       Sample.m2m_changed amb sender action instance model pk_set = Returned []).
Proof.
  assert (NoDup Sample.names) as Hnodup.
  { apply (bool_decide_unpack (NoDup Sample.names)). vm_compute. exact I. }
  split; [exact Hnodup|].
  destruct (registry_six_relations id Sample.special "User_groups" "Asset_nodes"
              "AssetPermission_users" "AssetPermission_user_groups"
              "AssetPermission_assets" "AssetPermission_nodes" Sample.ip_of
              Hnodup) as (Hsize & _ & Hout).
  split; [exact Hsize | exact Hout].
Defined.

(** C4 as stated fails: the registry has six keys, not five, and the
    relation of a permission to nodes, the fourth of the permission
    relations, is recorded like the others. *)
Lemma registry_has_six_keys :
  size Sample.registry = 6%nat
  ∧ Forall (λ name, is_Some (Sample.registry !! name)) Sample.names
  ∧ Sample.m2m_changed Sample.by_bob (Sample.through "AssetPermission_nodes")
      POST_ADD Sample.perm1 Sample.nodes (Some {[30%Z]})
    = Returned
        [Print "Instace name:  AssetPermission perm1";
         BulkCreate
           [mkOperateLog "bob" create "Node permission" "perm1 ADD /Default"
              "10.0.0.7" "org-1"]].
Proof.
  split; [vm_compute; reflexivity|].
  split; [|vm_compute; reflexivity].
  repeat constructor; vm_compute; by eexists.
Qed.

(** C5 as stated fails for the user agent: of a user agent of 300
    characters the first 254 are stored, not the first 255; a user agent of
    exactly 255 characters loses its last one. *)
Lemma user_agent_cut_at_254 :
  ld_user_agent
    (Sample.data_for "dave"
       (Sample.api_request Sample.anonymous
          {["HTTP_USER_AGENT" := Sample.text 300]}) None)
  = Sample.text 254
  ∧ slice_to 255 (Sample.text 300) = Sample.text 255
  ∧ Sample.text 254 ≠ Sample.text 255
  ∧ ld_user_agent
      (Sample.data_for "dave"
         (Sample.api_request Sample.anonymous
            {["HTTP_USER_AGENT" := Sample.text 255]}) None)
    = Sample.text 254.
Proof.
  split; [vm_compute; reflexivity|].
  split; [vm_compute; reflexivity|].
  split; [|vm_compute; reflexivity].
  intros H. apply (f_equal String.length) in H. vm_compute in H. discriminate.
Qed.

(** C6 as stated fails: carol's class is a subtype of [User], and her
    substitution key is the name of that runtime class, not [User]. *)
Lemma subtype_keyed_by_runtime_name :
  isinstance Sample.carol_staff Sample.User = true
  ∧ cls_name (obj_class Sample.carol_staff) ≠ cls_name Sample.User
  ∧ instance_name_of Sample.carol_staff = "StaffUser"
  ∧ instance_name_of Sample.web1 = "Asset".
Proof. repeat split; try (vm_compute; reflexivity). by vm_compute. Qed.

(** C10 as stated fails: [U] is also recorded for a REST framework request
    whose header carries [U], and for a web request with the explicit type
    [U]. *)
Lemma login_type_unknown_other_shapes :
  ld_type
    (Sample.data_for "dave"
       (Sample.api_request Sample.anonymous
          {["HTTP_X_JMS_LOGIN_TYPE" := "U"]}) None) = "U"
  ∧ ld_type
      (Sample.data_for "dave" (Sample.web_request Sample.anonymous) (Some "U"))
    = "U"
  ∧ ld_type
      (Sample.data_for "dave" (Sample.api_request Sample.anonymous ∅) None)
    = "U".
Proof. repeat split; vm_compute; reflexivity. Qed.

(** ** Further properties of the relation-change handler *)

Section RelationChange.

Variable gettext : string → string.
Variable format_special :
  string → ascii → string → gmap string string → result string.
Variables User_groups Asset_nodes : string.
Variables AssetPermission_users AssetPermission_user_groups : string.
Variables AssetPermission_assets AssetPermission_nodes : string.
Variable get_request_ip : HttpRequest → string.

Local Abbreviation registry :=
  (M2M_NEED_RECORD gettext User_groups Asset_nodes AssetPermission_users
     AssetPermission_user_groups AssetPermission_assets AssetPermission_nodes).
Local Abbreviation m2m_changed :=
  (on_m2m_changed gettext format_special User_groups Asset_nodes
     AssetPermission_users AssetPermission_user_groups AssetPermission_assets
     AssetPermission_nodes get_request_ip).
Local Abbreviation guarded :=
  (m2m_changed_guarded gettext format_special User_groups Asset_nodes
     AssetPermission_users AssetPermission_user_groups AssetPermission_assets
     AssetPermission_nodes get_request_ip).
Local Abbreviation recorded :=
  (m2m_changed_recorded gettext format_special User_groups Asset_nodes
     AssetPermission_users AssetPermission_user_groups AssetPermission_assets
     AssetPermission_nodes get_request_ip).

(** X1.  Whatever the event, the relation-change handler does one of four
    things: nothing at all; raise [TypeError] before anything is printed or
    persisted, when the guards pass and the event carries no set of primary
    keys; one print followed by one [bulk_create] of as many records as
    there are related instances; or one print followed by an exception of
    the loop, with nothing persisted.  There is never a partial batch and
    never a second [bulk_create]. *)
Theorem relation_change_all_or_nothing amb sender action instance model pk_set :
  m2m_changed amb sender action instance model pk_set = Returned []
  ∨ (pk_set = None
     ∧ m2m_changed amb sender action instance model pk_set = Raised [] TypeError)
  ∨ (∃ pks printed to_create,
       pk_set = Some pks
       ∧ m2m_changed amb sender action instance model pk_set
         = Returned [printed; BulkCreate to_create]
       ∧ length to_create = length (filter_pk_in model pks))
  ∨ (∃ pks printed e,
       pk_set = Some pks
       ∧ m2m_changed amb sender action instance model pk_set = Raised [printed] e
       ∧ filter_pk_in model pks ≠ []
       ∧ records_of (m2m_changed amb sender action instance model pk_set) = []).
Proof using Type.
  destruct (guarded amb sender action instance model pk_set)
    as [(Hact & (request & Hreq & Hauth) & [[[rt ta] tr] Hreg]) | Hnoop];
    [|by left].
  right.
  rewrite (recorded _ _ _ _ _ _ _ _ _ _ Hact Hreq Hauth Hreg).
  destruct pk_set as [pks|]; [right | by left].
  cbv zeta.
  destruct (for_each_append _ _ _) as [out|e] eqn:Hloop.
  - left. destruct (for_each_append_inv _ _ _ _ Hloop) as (bs & -> & Hall).
    eexists pks, _, _. split; [done|]. split; [reflexivity|].
    simpl. symmetry. by eapply Forall2_length.
  - right. eexists pks, _, e. split; [done|]. split; [reflexivity|].
    split; [|reflexivity].
    intros Hnil. rewrite Hnil in Hloop. done.
Qed.

(** X2.  Once the three guards pass, for an event that carries a set of
    primary keys matching at least one related instance, and a selected
    template whose replacement fields are all plain names: the handler
    returns normally exactly when the template can be formatted with the
    two substitution keys; otherwise it raises, after the print and before
    [bulk_create], the exception that formatting with these keys gives,
    whatever the display texts of the instances are. *)
Theorem relation_change_raises_iff amb sender action instance model pks
    request resource_type tmpl_add tmpl_remove :
  recorded_action action →
  current_request amb = Some request →
  is_authenticated (req_user request) = true →
  registry !! cls_name sender = Some (resource_type, tmpl_add, tmpl_remove) →
  filter_pk_in model pks ≠ [] →
  plain_template (template_of action tmpl_add tmpl_remove) = true →
  (template_fits format_special (template_of action tmpl_add tmpl_remove)
     (instance_name_of instance) (cls_name (model_class model)) = true
   ↔ ∃ trace,
       m2m_changed amb sender action instance model (Some pks) = Returned trace)
  ∧ (∀ e,
       format format_special (template_of action tmpl_add tmpl_remove)
         (<[cls_name (model_class model) := ""]>
            {[instance_name_of instance := ""]}) = Raise e →
       m2m_changed amb sender action instance model (Some pks)
       = Raised [Print ("Instace name:  " ++ instance_name_of instance ++ " "
                        ++ obj_str instance)] e).
Proof using Type.
  intros Hact Hreq Hauth Hreg Hobjs Hplain.
  assert (∀ e,
       format format_special (template_of action tmpl_add tmpl_remove)
         (<[cls_name (model_class model) := ""]>
            {[instance_name_of instance := ""]}) = Raise e →
       m2m_changed amb sender action instance model (Some pks)
       = Raised [Print ("Instace name:  " ++ instance_name_of instance ++ " "
                        ++ obj_str instance)] e) as Hraise.
  { intros e He.
    rewrite (recorded _ _ _ _ _ _ _ _ _ _ Hact Hreq Hauth Hreg).
    cbv zeta. destruct (filter_pk_in model pks) as [|obj objs]; [done|].
    simpl. unfold operate_log_for at 1, format_kwargs.
    by rewrite (format_raise_dom _ _ _ _ (obj_str instance) (obj_str obj) _
                  Hplain He). }
  split; [|exact Hraise]. split.
  - intros Hfit.
    rewrite (recorded _ _ _ _ _ _ _ _ _ _ Hact Hreq Hauth Hreg).
    cbv zeta.
    set (body := operate_log_for _ _ _ _ _ _ _ _ _ _).
    destruct (for_each_append_total body (filter_pk_in model pks))
      with (acc := @nil OperateLog) as [out Hout].
    { apply Forall_forall. intros obj _. unfold body, operate_log_for, format_kwargs.
      by destruct (format_ok_dom format_special _ _ _ (obj_str instance)
                     (obj_str obj) Hplain Hfit) as [text ->]. }
    rewrite Hout. by eexists.
  - intros [trace Htrace]. unfold template_fits.
    destruct (format _ _ _) as [text|e] eqn:Hfmt; [done|].
    rewrite (Hraise e eq_refl) in Htrace. done.
Qed.

(** X3.  Once the three guards pass, an event whose set of primary keys
    matches no related instance still reaches [bulk_create], with an empty
    batch, and cannot raise: the template is never formatted. *)
Theorem relation_change_empty_batch amb sender action instance model pks :
  recorded_action action →
  authenticated_actor amb →
  registered registry sender →
  filter_pk_in model pks = [] →
  m2m_changed amb sender action instance model (Some pks)
  = Returned [Print ("Instace name:  " ++ instance_name_of instance ++ " "
                     ++ obj_str instance);
              BulkCreate []].
Proof using Type.
  intros Hact (request & Hreq & Hauth) [[[rt ta] tr] Hreg] Hnone.
  rewrite (recorded _ _ _ _ _ _ _ _ _ _ Hact Hreq Hauth Hreg).
  cbv zeta. by rewrite Hnone.
Qed.

Lemma format_kwargs_swap (a va b vb : string) :
  a ≠ b → format_kwargs a va b vb = format_kwargs b vb a va.
Proof using Type.
  intros Hne. unfold format_kwargs.
  rewrite <- !insert_empty. by apply insert_insert_ne.
Qed.

Lemma filter_pk_in_single (cls : PyClass) (obj : PyObj) :
  filter_pk_in (mkModel cls [obj]) {[obj_pk obj]} = [obj].
Proof using Type.
  unfold filter_pk_in. simpl. rewrite filter_cons_True; [done|].
  by apply elem_of_singleton.
Qed.

(** The records the handler persists, read off its loop. *)
Lemma records_of_m2m_changed amb sender action instance model pks :
  records_of (m2m_changed amb sender action instance model (Some pks))
  = match M2M_ACTION_MAPER action, current_request amb with
    | Some _, Some request =>
        if is_authenticated (req_user request) then
          match registry !! cls_name sender with
          | Some (resource_type, tmpl_add, tmpl_remove) =>
              match for_each_append
                      (operate_log_for format_special
                         (user_str (req_user request))
                         (action_of action) resource_type
                         (template_of action tmpl_add tmpl_remove)
                         (get_request_ip request) (current_org_id amb)
                         (instance_name_of instance) (obj_str instance)
                         (cls_name (model_class model)))
                      (filter_pk_in model pks) [] with
              | Ok to_create => to_create
              | Raise _ => []
              end
          | None => []
          end
        else []
    | _, _ => []
    end.
Proof using Type.
  unfold on_m2m_changed.
  destruct (current_request amb) as [request|]; [|by destruct action].
  destruct (is_authenticated (req_user request)); [|by destruct action].
  destruct (registry !! cls_name sender) as [[[rt ta] tr]|]; [|by destruct action].
  destruct action; simpl; try done;
    destruct (for_each_append _ _ _); unfold records_of; simpl;
    by rewrite ?app_nil_r.
Qed.

(** X4.  A relation is audited alike from either side.  Take an instance
    [a] whose substitution key as owner is the name of the class [class_a]
    and an instance [b] whose key as owner is the name of [class_b], the
    two names being different.  Then the event with [a] as owner and [b]
    as the one related instance of model [class_b] persists the same
    records as the event with [b] as owner and [a] as the one related
    instance of model [class_a]. *)
Theorem relation_change_sides_agree amb sender action (a b : PyObj)
    (class_a class_b : PyClass) :
  instance_name_of a = cls_name class_a →
  instance_name_of b = cls_name class_b →
  cls_name class_a ≠ cls_name class_b →
  records_of (m2m_changed amb sender action a (mkModel class_b [b])
                (Some {[obj_pk b]}))
  = records_of (m2m_changed amb sender action b (mkModel class_a [a])
                  (Some {[obj_pk a]})).
Proof using Type.
  intros Ha Hb Hne. rewrite !records_of_m2m_changed, !filter_pk_in_single.
  simpl. rewrite Ha, Hb. unfold operate_log_for.
  by rewrite (format_kwargs_swap _ _ _ _ Hne).
Qed.

(** X5.  Every record the handler persists is attributed to the
    authenticated user of the current request, with that request's address
    and the current organisation; its action is create for an add and
    delete for a remove or a clear, never update. *)
Theorem relation_change_records_attributed amb sender action instance model pk_set :
  Forall (λ r,
            ∃ request,
              current_request amb = Some request
              ∧ is_authenticated (req_user request) = true
              ∧ ol_user r = user_str (req_user request)
              ∧ ol_remote_addr r = get_request_ip request
              ∧ ol_org_id r = current_org_id amb
              ∧ ol_action r ≠ update
              ∧ (ol_action r = create ↔ action = POST_ADD)
              ∧ (ol_action r = delete ↔ action = POST_REMOVE ∨ action = POST_CLEAR))
         (records_of (m2m_changed amb sender action instance model pk_set)).
Proof using Type.
  apply Forall_forall. intros r Hr.
  destruct (guarded amb sender action instance model pk_set)
    as [(Hact & (request & Hreq & Hauth) & _) | Hnoop];
    [|rewrite Hnoop in Hr; by apply elem_of_nil in Hr].
  destruct (m2m_changed_records _ _ _ _ _ _ _ _ _ _ _ _ _ _ _ _ Hr)
    as (pks & request' & rt & ta & tr & obj & _ & Hreq' & _ & _ & Hbuilt).
  assert (request' = request) as -> by congruence.
  destruct (operate_log_for_inv _ _ _ _ _ _ _ _ _ _ _ _ Hbuilt)
    as ((Huser & Haction & _ & Haddr & Horg) & _).
  exists request. rewrite Haction. unfold action_of.
  repeat split; try done;
    destruct Hact as [-> | [-> | ->]]; simpl; try done; auto;
    try (by intros [? | ?]).
Qed.

End RelationChange.

(** ** Further properties of the login data *)

Section Login.

Variable get_request_ip : HttpRequest → string.
Variable AUTH_BACKEND_LABEL_MAPPING : gmap string string.
Variable BACKEND_SESSION_KEY : string.
Variable now : Z.

Local Abbreviation login_backend :=
  (get_login_backend AUTH_BACKEND_LABEL_MAPPING BACKEND_SESSION_KEY).
Local Abbreviation data_for := (generate_data get_request_ip
     AUTH_BACKEND_LABEL_MAPPING BACKEND_SESSION_KEY now).

Lemma or_else_nonempty (x default : string) :
  x ≠ "" → or_else x default = x.
Proof using Type. by destruct x. Qed.

(** X6.  The backend of a login is the session's [auth_backend] entry
    when it is present and not empty, and the entry under
    [BACKEND_SESSION_KEY] (or the empty string) otherwise; the label is the
    one the mapping holds for that backend and the empty string when it
    holds none, so the result is empty or one of the mapping's labels and
    the lookup cannot fail. *)
Theorem login_backend_precedence request :
  (∀ backend,
     session request !! "auth_backend" = Some backend → backend ≠ "" →
     login_backend request = default "" (AUTH_BACKEND_LABEL_MAPPING !! backend))
  ∧ (session request !! "auth_backend" = None
     ∨ session request !! "auth_backend" = Some "" →
     login_backend request
     = default "" (AUTH_BACKEND_LABEL_MAPPING
                     !! dict_get (session request) BACKEND_SESSION_KEY ""))
  ∧ (login_backend request = ""
     ∨ ∃ backend, AUTH_BACKEND_LABEL_MAPPING !! backend = Some (login_backend request)).
Proof using Type.
  unfold get_login_backend. split; [|split].
  - intros backend Hsession Hne. unfold dict_get at 1. rewrite Hsession.
    rewrite (or_else_nonempty _ _ Hne).
    by destruct (AUTH_BACKEND_LABEL_MAPPING !! backend).
  - intros Hsession.
    assert (dict_get (session request) "auth_backend" "" = "") as ->.
    { unfold dict_get. by destruct Hsession as [-> | ->]. }
    simpl. by destruct (AUTH_BACKEND_LABEL_MAPPING !! _).
  - destruct (AUTH_BACKEND_LABEL_MAPPING !! _) as [label|] eqn:Hlabel;
      [right; by eexists | by left].
Qed.

(** X7.  The address recorded for a login is never empty: it is the
    address [get_request_ip] finds, and [0.0.0.0] when that is empty. *)
Theorem login_ip_never_empty name request login_type :
  ld_ip (data_for name request login_type) ≠ ""
  ∧ (get_request_ip request ≠ "" →
     ld_ip (data_for name request login_type) = get_request_ip request)
  ∧ (get_request_ip request = "" →
     ld_ip (data_for name request login_type) = "0.0.0.0").
Proof using Type.
  unfold generate_data. simpl.
  destruct (get_request_ip request) as [|c rest]; simpl; by repeat split.
Qed.

End Login.

(** ** The backend label mapping *)

Section BackendLabels.

Variable gettext : string → string.
Variables AUTH_BACKEND_PUBKEY AUTH_BACKEND_MODEL AUTH_BACKEND_SSO : string.
Variables AUTH_BACKEND_AUTH_TOKEN AUTH_BACKEND_WECOM AUTH_BACKEND_FEISHU : string.
Variables AUTH_BACKEND_DINGTALK AUTH_BACKEND_TEMP_TOKEN : string.

Local Abbreviation login_backends :=
  (get_login_backends gettext AUTH_BACKEND_PUBKEY AUTH_BACKEND_MODEL
     AUTH_BACKEND_SSO AUTH_BACKEND_AUTH_TOKEN AUTH_BACKEND_WECOM
     AUTH_BACKEND_FEISHU AUTH_BACKEND_DINGTALK AUTH_BACKEND_TEMP_TOKEN).
Local Abbreviation settings_backends :=
  [AUTH_BACKEND_PUBKEY; AUTH_BACKEND_MODEL; AUTH_BACKEND_SSO;
   AUTH_BACKEND_AUTH_TOKEN; AUTH_BACKEND_WECOM; AUTH_BACKEND_FEISHU;
   AUTH_BACKEND_DINGTALK; AUTH_BACKEND_TEMP_TOKEN].

Lemma label_backends_lookup (m : gmap string string) (label : string)
    (backends : list string) (backend : string) :
  label_backends m label backends !! backend
  = if bool_decide (backend ∈ backends) then Some label else m !! backend.
Proof using Type.
  unfold label_backends. revert m.
  induction backends as [|b backends IH]; intros m; cbn [foldl].
  - case_bool_decide as Hin; [by apply elem_of_nil in Hin | done].
  - rewrite IH. case_bool_decide as H; case_bool_decide as H0; try done.
    + exfalso. apply H0. by right.
    + apply elem_of_cons in H0 as [-> | Hin]; [|done].
      apply lookup_insert_eq.
    + apply lookup_insert_ne. intros ->. apply H0. by left.
Qed.

Lemma label_sources_lookup (items : list (string * list string)) (backend : string) :
  ∀ m, label_sources m items !! backend
       = match source_label items backend with
         | Some label => Some label
         | None => m !! backend
         end.
Proof using Type.
  unfold label_sources, source_label.
  induction items as [|item items IH]; intros m; simpl; [done|].
  rewrite IH, label_backends_lookup.
  destruct (bool_decide (backend ∈ item.2)); [|done].
  rewrite last_cons. by destruct (last _).
Qed.

(** X8.  With pairwise distinct backend identifiers in the settings, each
    of the eight gets its fixed label, whatever label the login sources
    give it: the assignments after the loop override the loop. *)
Theorem settings_labels_override items :
  NoDup settings_backends →
  login_backends items !! AUTH_BACKEND_PUBKEY = Some (gettext "SSH Key")
  ∧ login_backends items !! AUTH_BACKEND_MODEL = Some (gettext "Password")
  ∧ login_backends items !! AUTH_BACKEND_SSO = Some (gettext "SSO")
  ∧ login_backends items !! AUTH_BACKEND_AUTH_TOKEN = Some (gettext "Auth Token")
  ∧ login_backends items !! AUTH_BACKEND_WECOM = Some (gettext "WeCom")
  ∧ login_backends items !! AUTH_BACKEND_FEISHU = Some (gettext "FeiShu")
  ∧ login_backends items !! AUTH_BACKEND_DINGTALK = Some (gettext "DingTalk")
  ∧ login_backends items !! AUTH_BACKEND_TEMP_TOKEN
    = Some (gettext "Temporary token").
Proof using Type.
  intros Hnodup. unfold get_login_backends. cbv zeta.
  repeat match goal with
         | H : NoDup (_ :: _) |- _ =>
             apply NoDup_cons in H as [? H]
         end.
  repeat match goal with
         | H : _ ∉ _ :: _ |- _ =>
             apply not_elem_of_cons in H as [? H]
         end.
  repeat split;
    repeat first [ apply lookup_insert_eq
                 | rewrite lookup_insert_ne by congruence ].
Qed.

(** X9.  A backend that is none of the eight of the settings is labelled
    by the login sources alone: it gets the label of the last source that
    lists it, and no label when no source lists it. *)
Theorem source_labels_last_wins items backend :
  backend ∉ settings_backends →
  login_backends items !! backend = source_label items backend.
Proof using Type.
  intros Hout. unfold get_login_backends. cbv zeta.
  repeat match goal with
         | H : _ ∉ _ :: _ |- _ =>
             apply not_elem_of_cons in H as [? H]
         end.
  rewrite !lookup_insert_ne by congruence.
  rewrite label_sources_lookup, lookup_empty.
  by destruct (source_label items backend).
Qed.

(** X10.  A login whose session names, under [auth_backend], a backend
    that is neither one of the settings nor listed by any login source is
    recorded with the empty backend label. *)
Theorem unknown_backend_empty_label items key request backend :
  session request !! "auth_backend" = Some backend →
  backend ≠ "" →
  backend ∉ settings_backends →
  source_label items backend = None →
  get_login_backend (login_backends items) key request = "".
Proof using Type.
  intros Hsession Hne Hout Hnone. unfold get_login_backend.
  unfold dict_get at 1. rewrite Hsession.
  assert (or_else backend (dict_get (session request) key "") = backend) as ->
    by by destruct backend.
  assert (login_backends items !! backend = None) as ->; [|done].
  unfold get_login_backends. cbv zeta.
  repeat match goal with
         | H : _ ∉ _ :: _ |- _ =>
             apply not_elem_of_cons in H as [? H]
         end.
  rewrite !lookup_insert_ne by congruence.
  by rewrite label_sources_lookup, lookup_empty, Hnone.
Qed.

End BackendLabels.

(** ** The log mirror *)

Section MirrorProperties.

Variables models_UserLoginLog models_FTPLog models_OperateLog : PyClass.
Variables models_PasswordChangeLog Session Command : PyClass.
Variable data_to_json : SerializerClass → PyObj → string.

Local Abbreviation category_of :=
  (audit_category models_UserLoginLog models_FTPLog models_OperateLog
     models_PasswordChangeLog Session Command).
Local Abbreviation log_create :=
  (on_audits_log_create models_UserLoginLog models_FTPLog models_OperateLog
     models_PasswordChangeLog Session Command data_to_json).
Local Abbreviation mirrored :=
  [models_UserLoginLog; models_FTPLog; models_OperateLog;
   models_PasswordChangeLog; Session; Command].

(** The six branches of the chain, with the sender each one is taken for. *)
Lemma audit_category_cases sender category serializer_cls :
  category_of sender = Some (category, serializer_cls) →
  (sender = models_UserLoginLog
   ∧ category = "login_log" ∧ serializer_cls = UserLoginLogSerializer)
  ∨ (sender = models_FTPLog
     ∧ category = "ftp_log" ∧ serializer_cls = FTPLogSerializer)
  ∨ (sender = models_OperateLog
     ∧ category = "operation_log" ∧ serializer_cls = OperateLogSerializer)
  ∨ (sender = models_PasswordChangeLog
     ∧ category = "password_change_log"
     ∧ serializer_cls = PasswordChangeLogSerializer)
  ∨ (sender = Session
     ∧ category = "host_session_log" ∧ serializer_cls = SessionSerializer)
  ∨ (sender = Command
     ∧ category = "session_command_log"
     ∧ serializer_cls = SessionCommandSerializer).
Proof using Type.
  unfold audit_category. repeat case_bool_decide; intros [= <- <-]; auto 10.
Qed.

Lemma audit_category_none sender :
  category_of sender = None ↔ sender ∉ mirrored.
Proof using Type.
  unfold audit_category. rewrite !not_elem_of_cons.
  repeat case_bool_decide; split; try done.
  - by intros (? & _).
  - by intros (_ & ? & _).
  - by intros (_ & _ & ? & _).
  - by intros (_ & _ & _ & ? & _).
  - by intros (_ & _ & _ & _ & ? & _).
  - by intros (_ & _ & _ & _ & _ & ? & _).
  - intros _. repeat split; try done. apply not_elem_of_nil.
Qed.

(** X11.  The mirror logs nothing exactly for the senders that are none of
    the six mirrored model classes; for each of the six it logs one line,
    its category, the separator and the serialized instance. *)
Theorem audit_log_only_mirrored sender instance :
  (log_create sender instance = None ↔ sender ∉ mirrored)
  ∧ (sender ∈ mirrored →
     ∃ category serializer_cls,
       category_of sender = Some (category, serializer_cls)
       ∧ log_create sender instance
         = Some (category ++ " - " ++ data_to_json serializer_cls instance)).
Proof using Type.
  pose proof (audit_category_none sender) as Hnone.
  unfold on_audits_log_create.
  destruct (category_of sender) as [[category serializer_cls]|].
  - split; [split; [done|]|].
    + intros Hout. by apply Hnone in Hout.
    + intros _. by eexists _, _.
  - split; [split; [intros _; by apply Hnone | done]|].
    intros Hin. by destruct (proj1 Hnone eq_refl).
Qed.

(** X12.  A logged line tells where it comes from: two calls that log the
    same line have the same sender, hence the same category, and
    serialized their instances to the same text. *)
Theorem audit_line_unambiguous sender1 instance1 sender2 instance2 line :
  log_create sender1 instance1 = Some line →
  log_create sender2 instance2 = Some line →
  sender1 = sender2
  ∧ ∃ category serializer_cls,
      category_of sender1 = Some (category, serializer_cls)
      ∧ data_to_json serializer_cls instance1
        = data_to_json serializer_cls instance2.
Proof using Type.
  unfold on_audits_log_create.
  destruct (category_of sender1) as [[c1 k1]|] eqn:H1; [|done].
  destruct (category_of sender2) as [[c2 k2]|] eqn:H2; [|done].
  intros [= <-] [= Hline].
  apply audit_category_cases in H1 as Hc1. apply audit_category_cases in H2 as Hc2.
  destruct Hc1 as [(-> & -> & ->) | [(-> & -> & ->) | [(-> & -> & ->)
                 | [(-> & -> & ->) | [(-> & -> & ->) | (-> & -> & ->)]]]]];
    destruct Hc2 as [(-> & -> & ->) | [(-> & -> & ->) | [(-> & -> & ->)
                   | [(-> & -> & ->) | [(-> & -> & ->) | (-> & -> & ->)]]]]];
    cbv [String.append] in Hline; try discriminate Hline;
    (split; [done|]); eexists _, _; (split; [done|]); congruence.
Qed.

End MirrorProperties.

(** ** Witnesses of the further properties *)

(** [relation_change_raises_iff] on bob adding alice to the group admins:
    the template is plain and fits, so the handler returns. *)
Lemma relation_change_raises_iff_witness :
  ∃ trace,
    Sample.m2m_changed Sample.by_bob (Sample.through "User_groups") POST_ADD
      Sample.alice Sample.groups (Some {[10%Z]}) = Returned trace.
Proof.
  destruct (relation_change_raises_iff id Sample.special "User_groups"
              "Asset_nodes" "AssetPermission_users"
              "AssetPermission_user_groups" "AssetPermission_assets"
              "AssetPermission_nodes" Sample.ip_of
              Sample.by_bob (Sample.through "User_groups") POST_ADD
              Sample.alice Sample.groups {[10%Z]}
              (Sample.web_request Sample.bob)
              "User and Group" "{User} JOINED {UserGroup}" "{User} LEFT {UserGroup}")
    as [[Hreturns _] _].
  - left. reflexivity.
  - reflexivity.
  - reflexivity.
  - vm_compute. reflexivity.
  - vm_compute. discriminate.
  - vm_compute. reflexivity.
  - apply Hreturns. vm_compute. reflexivity.
Defined.

(** [relation_change_empty_batch] on bob adding alice to a group she is
    already in: the set of new primary keys is empty. *)
Lemma relation_change_empty_batch_witness :
  Sample.m2m_changed Sample.by_bob (Sample.through "User_groups") POST_ADD
    Sample.alice Sample.groups (Some ∅)
  = Returned [Print "Instace name:  User alice"; BulkCreate []].
Proof.
  refine (relation_change_empty_batch id Sample.special "User_groups"
            "Asset_nodes" "AssetPermission_users" "AssetPermission_user_groups"
            "AssetPermission_assets" "AssetPermission_nodes" Sample.ip_of
            Sample.by_bob (Sample.through "User_groups") POST_ADD
            Sample.alice Sample.groups ∅ _ _ _ _).
  - left. reflexivity.
  - exists (Sample.web_request Sample.bob). split; reflexivity.
  - vm_compute. eexists. reflexivity.
  - vm_compute. reflexivity.
Defined.

(** [relation_change_sides_agree] on alice and the group admins. *)
Lemma relation_change_sides_agree_witness :
  records_of
    (Sample.m2m_changed Sample.by_bob (Sample.through "User_groups") POST_ADD
       Sample.alice (mkModel Sample.UserGroup [Sample.admins])
       (Some {[obj_pk Sample.admins]}))
  = records_of
      (Sample.m2m_changed Sample.by_bob (Sample.through "User_groups") POST_ADD
         Sample.admins (mkModel Sample.User [Sample.alice])
         (Some {[obj_pk Sample.alice]})).
Proof.
  refine (relation_change_sides_agree id Sample.special "User_groups" "Asset_nodes"
            "AssetPermission_users" "AssetPermission_user_groups"
            "AssetPermission_assets" "AssetPermission_nodes" Sample.ip_of
            Sample.by_bob (Sample.through "User_groups") POST_ADD
            Sample.alice Sample.admins Sample.User Sample.UserGroup _ _ _).
  - vm_compute. reflexivity.
  - vm_compute. reflexivity.
  - vm_compute. discriminate.
Defined.

(** [settings_labels_override]: the source Local lists the backend model,
    which keeps the label of the settings. *)
Lemma settings_labels_override_witness :
  NoDup Sample.backends
  ∧ Sample.login_backends Sample.sources !! "model" = Some "Password".
Proof.
  assert (NoDup Sample.backends) as Hnodup.
  { apply (bool_decide_unpack (NoDup Sample.backends)). vm_compute. exact I. }
  split; [exact Hnodup|].
  destruct (settings_labels_override id "pubkey" "model" "sso" "auth_token"
              "wecom" "feishu" "dingtalk" "temp_token" Sample.sources Hnodup)
    as (_ & Hmodel & _).
  exact Hmodel.
Defined.

(** [source_labels_last_wins]: of the two sources that list ldap, the
    later one labels it. *)
Lemma source_labels_last_wins_witness :
  Sample.login_backends Sample.sources !! "ldap" = Some "CAS".
Proof.
  refine (eq_trans
            (source_labels_last_wins id "pubkey" "model" "sso" "auth_token"
               "wecom" "feishu" "dingtalk" "temp_token" Sample.sources "ldap" _)
            _).
  - apply (bool_decide_unpack ("ldap" ∉ Sample.backends)). vm_compute. exact I.
  - vm_compute. reflexivity.
Defined.

(** [unknown_backend_empty_label] on a session that names radius. *)
Lemma unknown_backend_empty_label_witness :
  get_login_backend (Sample.login_backends Sample.sources) "_auth_user_backend"
    Sample.radius_request = "".
Proof.
  refine (unknown_backend_empty_label id "pubkey" "model" "sso" "auth_token"
            "wecom" "feishu" "dingtalk" "temp_token" Sample.sources
            "_auth_user_backend" Sample.radius_request "radius" _ _ _ _).
  - vm_compute. reflexivity.
  - discriminate.
  - apply (bool_decide_unpack ("radius" ∉ Sample.backends)). vm_compute. exact I.
  - vm_compute. reflexivity.
Defined.

(** [audit_line_unambiguous] on two operate logs with the same text. *)
Lemma audit_line_unambiguous_witness :
  Sample.log_model "OperateLog" = Sample.log_model "OperateLog"
  ∧ ∃ category serializer_cls,
      Sample.category_of (Sample.log_model "OperateLog")
      = Some (category, serializer_cls)
      ∧ Sample.render serializer_cls (mkObj Sample.User 1 "alice JOINED admins")
        = Sample.render serializer_cls (mkObj Sample.User 2 "alice JOINED admins").
Proof.
  refine (audit_line_unambiguous (Sample.log_model "UserLoginLog")
            (Sample.log_model "FTPLog") (Sample.log_model "OperateLog")
            (Sample.log_model "PasswordChangeLog") (Sample.log_model "Session")
            (Sample.log_model "Command") Sample.render
            (Sample.log_model "OperateLog") (mkObj Sample.User 1 "alice JOINED admins")
            (Sample.log_model "OperateLog") (mkObj Sample.User 2 "alice JOINED admins")
            "operation_log - alice JOINED admins" _ _).
  - vm_compute. reflexivity.
  - vm_compute. reflexivity.
Defined.
